(** * The judge session handler of the bridge (server/libs/handler.py)

    A shallow embedding of [JudgeHandler]: the per-connection object that
    authenticates a judge, dispatches a submission to it and reacts to the
    packets the judge sends back.

    Python objects are mutable and methods raise; a method is embedded as a
    function from the handler's fields to an outcome (a returned value or a
    raised exception), the fields afterwards, and the ordered list of effects
    it had on the outside (messages sent, the socket closed, log records,
    threads started).  Field updates made before an exception is raised stay,
    as they do in Python. *)

From Stdlib Require Import String ZArith QArith Bool Lia List.
Import ListNotations.
Open Scope string_scope.
Open Scope Z_scope.
Open Scope list_scope.

Set Implicit Arguments.
Set Warnings "-register-all".

(** ** Python values *)

(** The values that reach the handler: what [json.loads] can return, which is
    also what the scheduler passes as ids.  [F] is the type of Python floats;
    its arithmetic belongs to the runtime (see [Runtime]). *)
Section Values.
Variable F : Type.

Inductive PyVal : Type :=
| VNone
| VBool (b : bool)
| VInt (z : Z)
| VFloat (f : F)
| VStr (s : string)
| VList (l : list PyVal)
| VDict (d : list (string * PyVal)).

(** A decoded JSON object is kept as the list of its items, in order;
    [dict_get] is [d.get(k)], the first item with the key. *)
Fixpoint dict_get (k : string) (d : list (string * PyVal)) : option PyVal :=
  match d with
  | [] => None
  | (k', v) :: d' => if String.eqb k k' then Some v else dict_get k d'
  end.

(** [d[k] = v]: overwrite in place, or insert at the end. *)
Fixpoint dict_set (k : string) (v : PyVal) (d : list (string * PyVal))
    : list (string * PyVal) :=
  match d with
  | [] => [(k, v)]
  | (k', v') :: d' =>
        if String.eqb k k' then (k, v) :: d' else (k', v') :: dict_set k v d'
  end.

(** [d.update(kwargs)]. *)
Definition dict_update (d kwargs : list (string * PyVal)) : list (string * PyVal) :=
    fold_left (fun acc kv => dict_set (fst kv) (snd kv) acc) kwargs d.

(** [needle in hay] for two strings: substring test. *)
Fixpoint str_contains (needle hay : string) : bool :=
    if String.prefix needle hay then true
    else match hay with
         | EmptyString => false
         | String _ rest => str_contains needle rest
         end.

(** [VStr k == v]: a string is equal only to the same string. *)
Definition eq_str (k : string) (v : PyVal) : bool :=
  match v with
  | VStr s => String.eqb k s
  | _ => false
  end.
End Values.

Arguments VNone {F}.
Arguments VBool {F} b.
Arguments VInt {F} z.
Arguments VStr {F} s.
Arguments VList {F} l.
Arguments VDict {F} d.

(** ** Exceptions *)

Inductive Exc : Type :=
| ValueError
| TypeError
| KeyError (k : string)
| AttributeError
| OverflowError
| RecursionError.

Inductive Outcome (A : Type) : Type :=
| Return (a : A)
| Raise (e : Exc).
Arguments Raise {A} e.

(** ** The Python runtime *)

(** What the handler takes from the interpreter and its library rather than
    from this repository: float arithmetic, the conversion of an int to a
    float (which raises [OverflowError] when the int does not fit), the
    builtin [sum] on floats and the builtin [dict].  No law is assumed about
    any of them. *)
Class Runtime : Type := {
  float : Type;
  fadd : float -> float -> float;
  fsub : float -> float -> float;
  fdiv : float -> float -> float;
  fsum : list float -> float;
  float_of_Z : Z -> float;
  fits_float : Z -> bool;
  float_is_zero : float -> bool;
  py_dict : PyVal float -> Outcome (PyVal float)
}.

(** ** Effects and auxiliary objects *)

Inductive Level : Type := INFO | WARNING | ERROR | EXCEPTION.

(** The methods the handler hands to [threading]: the function of the
    acknowledgment timer and the target of the ping thread. *)
Inductive TimerFunction : Type := the_kill_if_no_response.

Inductive ThreadTarget : Type := the_ping_thread.

(** A [threading.Timer(interval, function)] object.  The library runs
    [function] once, [interval] seconds after [start()] was called on the
    object, unless [cancel()] was called first; an object that was never
    started never runs. *)
Record Timer : Type := mkTimer {
  interval : Z;
  function : TimerFunction;
  started : bool;
  cancelled : bool
}.

(** [t.start()] and [t.cancel()]. *)
Definition start (t : Timer) : Timer :=
  mkTimer (interval t) (function t) true (cancelled t).

Definition cancel (t : Timer) : Timer :=
  mkTimer (interval t) (function t) (started t) true.

(** Whether the library has run the timer's function by the time [elapsed]
    seconds have passed since the call that made the object returned. *)
Definition due (elapsed : Z) (t : Timer) : bool :=
  started t && negb (cancelled t) && (interval t <=? elapsed).

(** A [collections.deque(maxlen=n)]. *)
Record deque (A : Type) : Type := mkDeque {
  items : list A;
  maxlen : nat
}.

(** [d.append(x)]: the new item goes to the right end, then an item is
    dropped from the left end if the bound is exceeded. *)
Definition append {A : Type} (x : A) (d : deque A) : deque A :=
  let l := items d ++ [x] in
  mkDeque (if Nat.ltb (maxlen d) (length l) then tl l else l) (maxlen d).

(** The [SubmissionData] named tuple. *)
Record SubmissionData (V : Type) : Type := mkSubmissionData {
  time : V;
  memory : V;
  short_circuit : V;
  pretests_only : V;
  contest_no : V;
  attempt_no : V;
  user_id : V
}.

Abbreviation Val := (PyVal float).

Section Handler.
Context {R : Runtime}.

(** What a call does to the outside, in order. *)
Inductive Event : Type :=
| Send (msg : Val)                 (* super().send(json.dumps(msg)) *)
| Close                            (* self.close() *)
| Log (lvl : Level) (fmt : string) (args : list Val)
                                   (* logger.lvl(fmt, args...) *)
| JsonLog (lvl : Level) (record : Val)
                                   (* json_log.lvl(json.dumps(record)) *)
| StartThread (target : ThreadTarget).
                                   (* threading.Thread(target=...).start() *)

(** The two methods of the class that compute a result and that the source
    leaves as placeholders for a deployment to fill in.  [base] below is the
    class exactly as the source has it. *)
Class Placeholders : Type := {
  _authenticate : Val -> Val -> bool;
  get_related_submission_data : Val -> option (SubmissionData Val)
}.

(** The fields [__init__] sets, and the two the base class owns
    ([client_address], [timeout]). *)
Record JudgeHandler : Type := mkHandler {
  client_address : Val;
  timeout : option Z;
  _working : Val;
  _no_response_job : option Timer;
  _problems : Val;
  executors : Val;
  problems : Val;
  latency : option float;
  time_delta : option float;
  load : Val;
  name : Val;
  is_disabled : bool;
  tier : Val;
  batch_id : Val;
  in_batch : bool;
  _stop_ping : bool;
  _ping_average : deque float;
  _time_delta : deque float;
  update_counter : Val;
  judge : Val;
  judge_address : Val;
  _submission_cache_id : Val;
  _submission_cache : Val
}.

(** [JudgeHandler.__init__]. *)
Definition init (client_address : Val) : JudgeHandler :=
  {| client_address := client_address;
     timeout := None;
     _working := VBool false;
     _no_response_job := None;
     _problems := VList [];
     executors := VDict [];
     problems := VDict [];
     latency := None;
     time_delta := None;
     load := VFloat (float_of_Z (10 ^ 100));
     name := VNone;
     is_disabled := false;
     tier := VNone;
     batch_id := VNone;
     in_batch := false;
     _stop_ping := false;
     _ping_average := mkDeque [] 6;
     _time_delta := mkDeque [] 6;
     update_counter := VDict [];
     judge := VNone;
     judge_address := VNone;
     _submission_cache_id := VNone;
     _submission_cache := VDict [] |}.

(** Field assignments [self.f = v]. *)
Definition set_timeout (v : option Z) (h : JudgeHandler) : JudgeHandler :=
  let '(mkHandler a _ c d e f g i j k l m n o p q r s t u w x y) := h in
  mkHandler a v c d e f g i j k l m n o p q r s t u w x y.
Definition set__working (v : Val) (h : JudgeHandler) : JudgeHandler :=
  let '(mkHandler a b _ d e f g i j k l m n o p q r s t u w x y) := h in
  mkHandler a b v d e f g i j k l m n o p q r s t u w x y.
Definition set__no_response_job (v : option Timer) (h : JudgeHandler) : JudgeHandler :=
  let '(mkHandler a b c _ e f g i j k l m n o p q r s t u w x y) := h in
  mkHandler a b c v e f g i j k l m n o p q r s t u w x y.
Definition set__problems (v : Val) (h : JudgeHandler) : JudgeHandler :=
  let '(mkHandler a b c d _ f g i j k l m n o p q r s t u w x y) := h in
  mkHandler a b c d v f g i j k l m n o p q r s t u w x y.
Definition set_executors (v : Val) (h : JudgeHandler) : JudgeHandler :=
  let '(mkHandler a b c d e _ g i j k l m n o p q r s t u w x y) := h in
  mkHandler a b c d e v g i j k l m n o p q r s t u w x y.
Definition set_problems (v : Val) (h : JudgeHandler) : JudgeHandler :=
  let '(mkHandler a b c d e f _ i j k l m n o p q r s t u w x y) := h in
  mkHandler a b c d e f v i j k l m n o p q r s t u w x y.
Definition set_latency (v : option float) (h : JudgeHandler) : JudgeHandler :=
  let '(mkHandler a b c d e f g _ j k l m n o p q r s t u w x y) := h in
  mkHandler a b c d e f g v j k l m n o p q r s t u w x y.
Definition set_time_delta (v : option float) (h : JudgeHandler) : JudgeHandler :=
  let '(mkHandler a b c d e f g i _ k l m n o p q r s t u w x y) := h in
  mkHandler a b c d e f g i v k l m n o p q r s t u w x y.
Definition set_load (v : Val) (h : JudgeHandler) : JudgeHandler :=
  let '(mkHandler a b c d e f g i j _ l m n o p q r s t u w x y) := h in
  mkHandler a b c d e f g i j v l m n o p q r s t u w x y.
Definition set_name (v : Val) (h : JudgeHandler) : JudgeHandler :=
  let '(mkHandler a b c d e f g i j k _ m n o p q r s t u w x y) := h in
  mkHandler a b c d e f g i j k v m n o p q r s t u w x y.
Definition set_batch_id (v : Val) (h : JudgeHandler) : JudgeHandler :=
  let '(mkHandler a b c d e f g i j k l m n _ p q r s t u w x y) := h in
  mkHandler a b c d e f g i j k l m n v p q r s t u w x y.
Definition set__stop_ping (v : bool) (h : JudgeHandler) : JudgeHandler :=
  let '(mkHandler a b c d e f g i j k l m n o p _ r s t u w x y) := h in
  mkHandler a b c d e f g i j k l m n o p v r s t u w x y.
Definition set__ping_average (v : deque float) (h : JudgeHandler) : JudgeHandler :=
  let '(mkHandler a b c d e f g i j k l m n o p q _ s t u w x y) := h in
  mkHandler a b c d e f g i j k l m n o p q v s t u w x y.
Definition set__time_delta (v : deque float) (h : JudgeHandler) : JudgeHandler :=
  let '(mkHandler a b c d e f g i j k l m n o p q r _ t u w x y) := h in
  mkHandler a b c d e f g i j k l m n o p q r v t u w x y.

(** ** Methods as computations *)

(** A method body: from the fields before the call to the outcome, the fields
    after it and the effects it had. *)
Definition M (A : Type) : Type :=
  JudgeHandler -> Outcome A * JudgeHandler * list Event.

Definition ret {A : Type} (a : A) : M A := fun h => (Return a, h, []).

Definition raise {A : Type} (e : Exc) : M A := fun h => (Raise e, h, []).

Definition bind {A B : Type} (m : M A) (k : A -> M B) : M B :=
  fun h =>
    match m h with
    | (Return a, h1, ev1) =>
        let '(r, h2, ev2) := k a h1 in (r, h2, ev1 ++ ev2)
    | (Raise e, h1, ev1) => (Raise e, h1, ev1)
    end.

(** [try: m  except <handles>: k]. *)
Definition try_except {A : Type} (m : M A) (handles : Exc -> bool) (k : M A) : M A :=
  fun h =>
    match m h with
    | (Raise e, h1, ev1) =>
        if handles e
        then let '(r, h2, ev2) := k h1 in (r, h2, ev1 ++ ev2)
        else (Raise e, h1, ev1)
    | done => done
    end.

Definition get {A : Type} (f : JudgeHandler -> A) : M A := fun h => (Return (f h), h, []).

Definition modify (f : JudgeHandler -> JudgeHandler) : M unit := fun h => (Return tt, f h, []).

Definition emit (e : Event) : M unit := fun h => (Return tt, h, [e]).

Definition lift {A : Type} (r : Outcome A) : M A := fun h => (r, h, []).

Notation "x <- m ;; k" := (bind m (fun x => k))
  (at level 61, m at next level, right associativity).
Notation "m ;; k" := (bind m (fun _ => k))
  (at level 61, right associativity).

(** ** Python operators on values *)

(** [bool(v)]. *)
Definition truthy (v : Val) : bool :=
  match v with
  | VNone => false
  | VBool b => b
  | VInt z => negb (Z.eqb z 0)
  | VFloat f => negb (float_is_zero f)
  | VStr s => negb (String.eqb s "")
  | VList l => match l with [] => false | _ => true end
  | VDict d => match d with [] => false | _ => true end
  end.

(** [v is None]. *)
Definition is_none (v : Val) : bool :=
  match v with VNone => true | _ => false end.

(** [k in v] for a string [k]: key test on a dict, membership on a list,
    substring on a string, [TypeError] on anything else. *)
Definition contains (k : string) (v : Val) : Outcome bool :=
  match v with
  | VDict d => Return (match dict_get k d with Some _ => true | None => false end)
  | VList l => Return (existsb (eq_str k) l)
  | VStr s => Return (str_contains k s)
  | _ => Raise TypeError
  end.

(** [v[k]] for a string [k]. *)
Definition getitem (v : Val) (k : string) : Outcome Val :=
  match v with
  | VDict d => match dict_get k d with Some x => Return x | None => Raise (KeyError k) end
  | _ => Raise TypeError
  end.

(** The float a value stands for as an operand of float arithmetic. *)
Definition as_float (v : Val) : Outcome float :=
  match v with
  | VFloat f => Return f
  | VInt z => if fits_float z then Return (float_of_Z z) else Raise OverflowError
  | VBool b => Return (float_of_Z (if b then 1 else 0))
  | _ => Raise TypeError
  end.

(** ** The methods of [JudgeHandler] *)

Context {P : Placeholders}.

(** Modelled from the spec: [ZlibPacketHandler.send] and
    [ZlibPacketHandler.close] live in base_handler.py, which is not among the
    sources; the one hands a message to the transport, the other closes the
    socket.  They are recorded as effects. *)
Definition send (data : Val) : M unit := emit (Send data).

Definition close : M unit := emit Close.

Definition _make_json_log (packet : option Val) (sub : Val)
    (kwargs : list (string * Val)) : M Val :=
  judge_name <- get name ;;
  address <- get judge_address ;;
  let data := [("judge", judge_name); ("address", address)] in
  sub <- match packet with
         | Some pkt =>
             if is_none sub && negb (is_none pkt)
             then match pkt with
                  | VDict d => ret (match dict_get "submission-id" d with
                                    | Some x => x
                                    | None => VNone
                                    end)
                  | _ => raise AttributeError
                  end
             else ret sub
         | None => ret sub
         end ;;
  let data := if is_none sub then data else dict_set "submission" sub data in
  ret (VDict (dict_update data kwargs)).

Definition on_connect : M unit :=
  modify (set_timeout (Some 15)) ;;
  addr <- get client_address ;;
  emit (Log INFO "Judge connected from: %s" [addr]) ;;
  record <- _make_json_log None VNone [("action", VStr "connect")] ;;
  emit (JsonLog INFO record).

Definition _connected : M unit := ret tt.

Definition _disconnected : M unit := ret tt.

Definition _update_ping : M unit := ret tt.

Definition on_disconnect : M unit :=
  modify (set__stop_ping true) ;;
  w <- get _working ;;
  n <- get name ;;
  (if truthy w
   then emit (Log ERROR "Judge %s disconnected while handling submission %s" [n; w])
   else ret tt) ;;
  (if is_none n then ret tt else _disconnected) ;;
  addr <- get client_address ;;
  emit (Log INFO "Judge disconnected from: %s with name %s" [addr; n]) ;;
  record <- _make_json_log None VNone
              [("action", VStr "disconnect"); ("info", VStr "judge disconnected")] ;;
  emit (JsonLog INFO record).

Definition on_handshake (packet : Val) : M unit :=
  has_id <- lift (contains "id" packet) ;;
  has_key <- (if has_id then lift (contains "key" packet) else ret false) ;;
  if negb has_id || negb has_key
  then
    addr <- get client_address ;;
    emit (Log WARNING "Malformed handshake: %s" [addr]) ;;
    close
  else
    id <- lift (getitem packet "id") ;;
    key <- lift (getitem packet "key") ;;
    if negb (_authenticate id key)
    then close
    else
      modify (set_timeout (Some 60)) ;;
      ps <- lift (getitem packet "problems") ;;
      modify (set__problems ps) ;;
      pd <- lift (py_dict ps) ;;
      modify (set_problems pd) ;;
      ex <- lift (getitem packet "executors") ;;
      modify (set_executors ex) ;;
      id <- lift (getitem packet "id") ;;
      modify (set_name id) ;;
      send (VDict [("name", VStr "handshake-success")]) ;;
      addr <- get client_address ;;
      id <- lift (getitem packet "id") ;;
      emit (Log INFO "Judge authenticated: %s (%s)" [addr; id]) ;;
      emit (StartThread the_ping_thread) ;;
      _connected.

(** The [working] property. *)
Definition working (h : JudgeHandler) : bool := truthy (_working h).

Definition disconnect (force : bool) : M unit :=
  if force then close else send (VDict [("name", VStr "disconnect")]).

Definition submit (id problem language source : Val) : M unit :=
  let data := get_related_submission_data id in
  modify (set__working id) ;;
  modify (set__no_response_job (Some (mkTimer 20 the_kill_if_no_response false false))) ;;
  match data with
  | None => raise AttributeError
  | Some data =>
      send (VDict [
        ("name", VStr "submission-request");
        ("submission-id", id);
        ("problem-id", problem);
        ("language", language);
        ("source", source);
        ("time-limit", time data);
        ("memory-limit", memory data);
        ("short-circuit", short_circuit data);
        ("meta", VDict [
          ("pretests-only", pretests_only data);
          ("in-contest", contest_no data);
          ("attempt-no", attempt_no data);
          ("user", user_id data)])])
  end.

Definition _kill_if_no_response : M unit :=
  n <- get name ;;
  w <- get _working ;;
  emit (Log ERROR "Judge failed to acknowledge submission: %s: %s" [n; w]) ;;
  close.

Definition on_timeout : M unit :=
  n <- get name ;;
  if truthy n
  then w <- get _working ;;
       emit (Log WARNING "Judge seems dead: %s: %s" [n; w])
  else ret tt.

Definition on_submission_processing (packet : Val) : M unit := ret tt.

Definition on_submission_wrong_acknowledge (packet expected got : Val) : M unit := ret tt.

Definition on_submission_acknowledged (packet : Val) : M unit := ret tt.

Definition abort : M unit := send (VDict [("name", VStr "terminate-submission")]).

Definition get_current_submission (h : JudgeHandler) : Val :=
  if truthy (_working h) then _working h else VNone.

(** [clock] is what [time.time()] returns during the call. *)
Definition ping (clock : float) : M unit :=
  send (VDict [("name", VStr "ping"); ("when", VFloat clock)]).

Definition _packet_exception : M unit :=
  w <- get _working ;;
  record <- _make_json_log None w [("info", VStr "packet processing exception")] ;;
  emit (JsonLog EXCEPTION record).

Definition _submission_is_batch (id : Val) : M Val := ret VNone.

Definition on_supported_problems (packet : Val) : M unit := ret tt.

Definition on_grading_begin (packet : Val) : M unit :=
  n <- get name ;;
  sid <- lift (getitem packet "submission-id") ;;
  emit (Log INFO "%s: Grading has begun on: %s" [n; sid]) ;;
  modify (set_batch_id VNone).

Definition on_grading_end (packet : Val) : M unit := ret tt.

Definition on_compile_error (packet : Val) : M unit := ret tt.

Definition on_compile_message (packet : Val) : M unit := ret tt.

Definition on_internal_error (packet : Val) : M unit := ret tt.

Definition on_submission_terminated (packet : Val) : M unit := ret tt.

Definition on_batch_begin (packet : Val) : M unit := ret tt.

Definition on_batch_end (packet : Val) : M unit := ret tt.

Definition on_test_case (packet : Val) (max_feedback : Z) : M unit := ret tt.

Definition on_malformed (packet : Val) : M unit :=
  n <- get name ;;
  emit (Log ERROR "%s: Malformed packet: %s" [n; packet]) ;;
  w <- get _working ;;
  record <- _make_json_log None w [("info", VStr "malformed json packet")] ;;
  emit (JsonLog EXCEPTION record).

(** [sum(d) / len(d)]. *)
Definition mean (d : deque float) : float :=
  fdiv (fsum (items d)) (float_of_Z (Z.of_nat (length (items d)))).

Definition on_ping_response (clock : float) (packet : Val) : M unit :=
  let end_ := clock in
  when <- lift (getitem packet "when") ;;
  when <- lift (as_float when) ;;
  pa <- get _ping_average ;;
  modify (set__ping_average (append (fsub end_ when) pa)) ;;
  when <- lift (getitem packet "when") ;;
  when <- lift (as_float when) ;;
  t <- lift (getitem packet "time") ;;
  t <- lift (as_float t) ;;
  td <- get _time_delta ;;
  modify (set__time_delta (append (fsub (fdiv (fadd end_ when) (float_of_Z 2)) t) td)) ;;
  pa <- get _ping_average ;;
  modify (set_latency (Some (mean pa))) ;;
  td <- get _time_delta ;;
  modify (set_time_delta (Some (mean td))) ;;
  l <- lift (getitem packet "load") ;;
  modify (set_load l) ;;
  _update_ping.

Definition _post_update_submission (id state : Val) (done : bool) : M unit := ret tt.

Definition on_cleanup : M unit := ret tt.

(** [self.handlers], with [time.time()] fixed to [clock] for the call. *)
Definition handlers (clock : float) : list (string * (Val -> M unit)) :=
  [ ("grading-begin", on_grading_begin);
    ("grading-end", on_grading_end);
    ("compile-error", on_compile_error);
    ("compile-message", on_compile_message);
    ("batch-begin", on_batch_begin);
    ("batch-end", on_batch_end);
    ("test-case-status", fun packet => on_test_case packet 100);
    ("internal-error", on_internal_error);
    ("submission-terminated", on_submission_terminated);
    ("submission-acknowledged", on_submission_acknowledged);
    ("ping-response", on_ping_response clock);
    ("supported-problems", on_supported_problems);
    ("handshake", on_handshake) ].

Fixpoint assoc {A : Type} (k : string) (l : list (string * A)) : option A :=
  match l with
  | [] => None
  | (k', a) :: l' => if String.eqb k k' then Some a else assoc k l'
  end.

(** [self.handlers.get(key, self.on_malformed)]: the key must be hashable;
    only a string can be equal to one of the names. *)
Definition handlers_get (clock : float) (key : Val) : Outcome (Val -> M unit) :=
  match key with
  | VStr s => Return (match assoc s (handlers clock) with
                      | Some handler => handler
                      | None => on_malformed
                      end)
  | VList _ | VDict _ => Raise TypeError
  | _ => Return on_malformed
  end.

(** What arrives from the transport, seen through [json.loads]: text the
    decoder rejects with a [ValueError], text nested so deeply that the
    decoder gives up with a [RecursionError], or the value it decodes to. *)
Inductive Wire : Type :=
| Undecodable (raw : string)
| TooDeep (raw : string)
| Decoded (v : Val).

Definition on_packet (clock : float) (data : Wire) : M unit :=
  try_except
    (match data with
     | Undecodable raw =>
         (* json.loads raised: [data] is still the text *)
         on_malformed (VStr raw)
     | TooDeep raw =>
         (* json.loads raised what [except ValueError] does not catch *)
         raise RecursionError
     | Decoded data =>
         has_name <- lift (contains "name" data) ;;
         if negb has_name
         then (* raise ValueError, handled right here *)
              on_malformed data
         else
           key <- lift (getitem data "name") ;;
           handler <- lift (handlers_get clock key) ;;
           handler data
     end)
    (fun _ => true)
    (n <- get name ;;
     emit (Log EXCEPTION "Error in packet handling (Judge-side): %s" [n]) ;;
     _packet_exception).

(** ** The environment driving a handler *)

(** The acknowledgment timer as the [threading] library treats it: by the time
    [elapsed] seconds have passed it has run its function if it is [due]. *)
Definition run_timer_function (f : TimerFunction) : M unit :=
  match f with the_kill_if_no_response => _kill_if_no_response end.

Definition timer_elapse (elapsed : Z) : M unit :=
  job <- get _no_response_job ;;
  match job with
  | Some t => if due elapsed t then run_timer_function (function t) else ret tt
  | None => ret tt
  end.

(** The transport delivering packets one after the other, each with the clock
    reading during its handling. *)
Fixpoint on_packets (stream : list (float * Wire)) : M unit :=
  match stream with
  | [] => ret tt
  | (clock, data) :: rest => on_packet clock data ;; on_packets rest
  end.

Definition outcome_of {A : Type} (r : Outcome A * JudgeHandler * list Event) : Outcome A :=
  fst (fst r).

Definition handler_after {A : Type} (r : Outcome A * JudgeHandler * list Event) : JudgeHandler :=
  snd (fst r).

Definition events_of {A : Type} (r : Outcome A * JudgeHandler * list Event) : list Event :=
  snd r.

(** The messages among the effects, and whether the socket was closed. *)
Definition sent (ev : list Event) : list Val :=
  flat_map (fun e => match e with Send m => [m] | _ => [] end) ev.

Definition closed (ev : list Event) : bool :=
  existsb (fun e => match e with Close => true | _ => false end) ev.

End Handler.

Notation "x <- m ;; k" := (bind m (fun x => k))
  (at level 61, m at next level, right associativity).
Notation "m ;; k" := (bind m (fun _ => k))
  (at level 61, right associativity).

(** The class as the source has it: [_authenticate] returns [True] and
    [get_related_submission_data] returns [None]. *)
#[export] Instance base {R : Runtime} : Placeholders := {|
  _authenticate := fun _ _ => true;
  get_related_submission_data := fun _ => None
|}.

Definition UPDATE_RATE_LIMIT : nat := 5.

Definition UPDATE_RATE_TIME : Q := 1 # 2.

(** ** The specification's vocabulary *)

Section Vocabulary.
Context {R : Runtime} {P : Placeholders}.

(** Round-trip latency: receive time minus sent time. *)
Definition latency_sample (receive_time sent_time : float) : float :=
  fsub receive_time sent_time.

(** Clock offset: the midpoint of receive and sent time, minus the time the
    worker reported. *)
Definition clock_offset_sample (receive_time sent_time worker_time : float) : float :=
  fsub (fdiv (fadd receive_time sent_time) (float_of_Z 2)) worker_time.


(** The last [n] items of a list: a window of capacity [n] over everything
    pushed so far, oldest evicted first. *)
Definition lastn {A : Type} (n : nat) (l : list A) : list A :=
  skipn (length l - n) l.

(** A ping-response as the message catalogue has it: a [when] and a [time]
    that are numbers, and a [load]. *)
Record Ping : Type := mkPing {
  receive_time : float;
  packet : list (string * Val);
  sent_time : float;
  worker_time : float
}.

Definition is_ping_response (p : Ping) : Prop :=
  dict_get "name" (packet p) = Some (VStr "ping-response") /\
  (exists v, dict_get "when" (packet p) = Some v /\ as_float v = Return (sent_time p)) /\
  (exists v, dict_get "time" (packet p) = Some v /\ as_float v = Return (worker_time p)) /\
  (exists v, dict_get "load" (packet p) = Some v).


Definition arrival (p : Ping) : float * Wire :=
  (receive_time p, Decoded (VDict (packet p))).

(** The two sample windows keep to the bound they were made with. *)
Definition windows_bounded (h : JudgeHandler) : Prop :=
  maxlen (_ping_average h) = 6%nat /\ (length (items (_ping_average h)) <= 6)%nat /\
  maxlen (_time_delta h) = 6%nat /\ (length (items (_time_delta h)) <= 6)%nat.

(** The lifecycle states the specification names.  The class has no field
    for them; any reading of the lifecycle is a function of its fields. *)
Inductive Lifecycle : Type := Idle | Requested | Acknowledged | Grading.

(** A call leaves a trace when it has an effect on the outside or changes a
    field: what a handler that forwards, stores or defers a result must do. *)
Definition leaves_trace {A : Type} (h : JudgeHandler)
    (r : Outcome A * JudgeHandler * list Event) : Prop :=
  events_of r <> [] \/ handler_after r <> h.

(** The audit record [_make_json_log(sub=self._working, info=...)] builds. *)
Definition audit_record (h : JudgeHandler) (info : string) : Val :=
  VDict ([("judge", name h); ("address", judge_address h)]
         ++ (if is_none (_working h) then [] else [("submission", _working h)])
         ++ [("info", VStr info)]).

(** The names [self.handlers] has an entry for. *)
Definition catalogue : list string :=
  [ "grading-begin"; "grading-end"; "compile-error"; "compile-message";
    "batch-begin"; "batch-end"; "test-case-status"; "internal-error";
    "submission-terminated"; "submission-acknowledged"; "ping-response";
    "supported-problems"; "handshake" ].

(** Whether a packet is a message with a name from the catalogue. *)
Definition routed (data : Wire) : bool :=
  match data with
  | Decoded (VDict d) =>
      match dict_get "name" d with
      | Some (VStr s) => existsb (String.eqb s) catalogue
      | _ => false
      end
  | _ => false
  end.

(** What [on_malformed] is handed for a packet. *)
Definition payload (data : Wire) : Val :=
  match data with
  | Undecodable raw => VStr raw
  | TooDeep raw => VStr raw
  | Decoded v => v
  end.

(** The packets without a handler that [on_packet] hands to [on_malformed]:
    text that does not decode, an object, list or string that does not
    contain ["name"], and an object whose name is hashable.  The others raise
    on the way: text nested too deeply a [RecursionError]; a number, [null],
    a boolean, a list or string that contains ["name"], an object whose name
    is a list or an object, a [TypeError]. *)
Definition reaches_on_malformed (data : Wire) : bool :=
  match data with
  | Undecodable _ => true
  | TooDeep _ => false
  | Decoded (VDict d) =>
      match dict_get "name" d with
      | None => true
      | Some (VStr s) => negb (existsb (String.eqb s) catalogue)
      | Some (VList _) | Some (VDict _) => false
      | Some _ => true
      end
  | Decoded (VList l) => negb (existsb (eq_str "name") l)
  | Decoded (VStr s) => negb (str_contains "name" s)
  | Decoded _ => false
  end.

(** The body of the [try] statement of [on_packet], and its
    [except Exception] clause with what the clause logs. *)
Definition dispatch (clock : float) (data : Wire) : M unit :=
  match data with
  | Undecodable raw => on_malformed (VStr raw)
  | TooDeep raw => raise RecursionError
  | Decoded data =>
      has_name <- lift (contains "name" data) ;;
      if negb has_name
      then on_malformed data
      else
        key <- lift (getitem data "name") ;;
        handler <- lift (handlers_get clock key) ;;
        handler data
  end.

Definition recover : M unit :=
  n <- get name ;;
  emit (Log EXCEPTION "Error in packet handling (Judge-side): %s" [n]) ;;
  _packet_exception.

Definition catch_all_events (h : JudgeHandler) : list Event :=
  [Log EXCEPTION "Error in packet handling (Judge-side): %s" [name h];
   JsonLog EXCEPTION (audit_record h "packet processing exception")].

(** The two sample windows of a handler. *)
Definition windows (h : JudgeHandler) : deque float * deque float :=
  (_ping_average h, _time_delta h).

(** A decoded message with the given name. *)
Definition is_message (s : string) (data : Wire) : Prop :=
  exists d, data = Decoded (VDict d) /\ dict_get "name" d = Some (VStr s).

(** The handlers whose body is [pass]. *)
Definition empty_handlers : list string :=
  [ "grading-end"; "compile-error"; "compile-message"; "batch-begin";
    "batch-end"; "test-case-status"; "internal-error"; "submission-terminated";
    "submission-acknowledged"; "supported-problems" ].

(** A method keeps a field (or any reading [f] of the fields) when the
    reading is the same after every call, however the call ends. *)
Definition keeps {X A : Type} (f : JudgeHandler -> X) (m : M A) : Prop :=
  forall h, f (handler_after (m h)) = f h.

(** The acknowledgment timer is disarmed when it is gone or cancelled. *)
Definition disarmed (h : JudgeHandler) : bool :=
  match _no_response_job h with
  | None => true
  | Some t => cancelled t
  end.

End Vocabulary.

(** ** The rest of the class *)

Section Scheduling.
Context {R : Runtime} {P : Placeholders}.

(** [can_judge(problem, executor, judge_id=None)].  The scheduler names
    problems, executors and judges by strings; [judge_id] is a string or
    [None].  [and] and [or] stop at the first operand that decides, so a
    membership test further right is not made and cannot raise. *)
Definition can_judge (problem executor : string) (judge_id : option string)
    (h : JudgeHandler) : Outcome bool :=
  match contains problem (problems h) with
  | Raise e => Raise e
  | Return false => Return false
  | Return true =>
      match contains executor (executors h) with
      | Raise e => Raise e
      | Return false => Return false
      | Return true =>
          let not_judge_id :=
            match judge_id with None => true | Some s => String.eqb s "" end in
          let name_is_judge_id :=
            match judge_id with None => is_none (name h) | Some s => eq_str s (name h) end in
          Return ((not_judge_id && negb (is_disabled h)) || name_is_judge_id)
      end
  end.

(** The [while True] loop of [_ping_thread]: a ping, then a wait of ten
    seconds on [_stop_ping] that ends the loop when the flag is set.  One
    clock reading per ping; the result tells whether the loop ended within
    the readings given. *)
Fixpoint _ping_thread_loop (clocks : list float) : M bool :=
  match clocks with
  | [] => ret false
  | clock :: rest =>
      ping clock ;;
      stop <- get _stop_ping ;;
      if stop then ret true else _ping_thread_loop rest
  end.

(** [_ping_thread]: the loop, and for an exception out of it a log record,
    [close()] and the exception again. *)
Definition _ping_thread (clocks : list float) : M bool :=
  fun h =>
    match _ping_thread_loop clocks h with
    | (Raise e, h1, ev1) =>
        (Raise e, h1, ev1 ++ [Log EXCEPTION "Ping error in %s" [name h1]; Close])
    | done => done
    end.

(** A call is quiet when it neither sends a message nor closes the socket. *)
Definition quiet {A : Type} (m : M A) : Prop :=
  forall h, closed (events_of (m h)) = false /\ sent (events_of (m h)) = [].

(** Whether a packet is a message named handshake. *)
Definition names_handshake (data : Wire) : bool :=
  match data with
  | Decoded (VDict d) =>
      match dict_get "name" d with
      | Some (VStr s) => String.eqb s "handshake"
      | _ => false
      end
  | _ => false
  end.

(** What a handshake settles: who the judge is and what it can judge. *)
Definition identity (h : JudgeHandler) : Val * option Z * Val * Val * Val :=
  (name h, timeout h, _problems h, problems h, executors h).

(** What [submit] sets up and the scheduler reads. *)
Definition assignment (h : JudgeHandler) : Val * option Timer * bool * bool :=
  (_working h, _no_response_job h, is_disabled h, _stop_ping h).

(** The record of a loss: what [on_disconnect] logs for a judge that goes
    away with a submission in hand. *)
Definition loss_record (h : JudgeHandler) : Event :=
  Log ERROR "Judge %s disconnected while handling submission %s" [name h; _working h].

End Scheduling.

(** ** A runtime to run examples on *)

(** Rationals for floats (exact, every int fits), and [dict] on a dict or on
    a list of [[name, value]] pairs. *)
Fixpoint dict_of_pairs (l : list (PyVal Q)) (acc : list (string * PyVal Q))
    : Outcome (PyVal Q) :=
  match l with
  | [] => Return (VDict acc)
  | VList [VStr k; v] :: l' => dict_of_pairs l' (dict_set k v acc)
  | _ => Raise TypeError
  end.

#[export] Instance exact : Runtime := {|
  float := Q;
  fadd := Qplus;
  fsub := Qminus;
  fdiv := Qdiv;
  fsum := fun l => fold_left Qplus l 0%Q;
  float_of_Z := inject_Z;
  fits_float := fun _ => true;
  float_is_zero := fun q => Qeq_bool q 0;
  py_dict := fun v => match v with
                      | VDict d => Return (VDict d)
                      | VList l => dict_of_pairs l []
                      | _ => Raise TypeError
                      end
|}.

(** A judge that has just connected, and the same judge after the scheduler
    dispatched submission 42 to it. *)
Definition idle_judge : JudgeHandler := init (VStr "10.0.0.7").

Definition busy_judge : JudgeHandler :=
  handler_after
    (submit (P := base) (VInt 42) (VStr "aplusb") (VStr "PY3") (VStr "print(1)") idle_judge).

Definition message (name : string) (id : Z) : list (string * Val) :=
  [("name", VStr name); ("submission-id", VInt id)].

Definition ping_response (when time : Q) : list (string * Val) :=
  [("name", VStr "ping-response"); ("when", VFloat when); ("time", VFloat time);
   ("load", VFloat (1 # 4))].

(** A deployment whose [_authenticate] turns every judge down. *)
Definition nobody : Placeholders := {|
  _authenticate := fun _ _ => false;
  get_related_submission_data := fun _ => None
|}.

(** A deployment whose store has the metadata of every submission, and the
    judge after the scheduler dispatched submission 42 to it there. *)
Definition limits : SubmissionData Val :=
  mkSubmissionData (VInt 2 : Val) (VInt 65536) (VBool false) (VBool false) VNone
                   (VInt 1) (VInt 7).

Definition stocked : Placeholders := {|
  _authenticate := fun _ _ => true;
  get_related_submission_data := fun _ => Some limits
|}.


(** A handshake with every field, and one that carries no [key]. *)
Definition full_handshake : list (string * Val) :=
  [("name", VStr "handshake"); ("id", VStr "judge1"); ("key", VStr "secret");
   ("problems", VList [VList [VStr "aplusb"; VInt 1]]); ("executors", VDict [])].

Definition keyless_handshake : list (string * Val) :=
  [("name", VStr "handshake"); ("id", VStr "judge1");
   ("problems", VList []); ("executors", VDict [])].

(** A judge that shook hands as judge1, for problem aplusb with executor PY3. *)
Definition capable_handshake : list (string * Val) :=
  [("name", VStr "handshake"); ("id", VStr "judge1"); ("key", VStr "secret");
   ("problems", VList [VList [VStr "aplusb"; VInt 1]]);
   ("executors", VDict [("PY3", VList [])])].

Definition capable_judge : JudgeHandler :=
  handler_after (on_packet (P := base) 5%Q (Decoded (VDict capable_handshake)) idle_judge).

(** A handshake that authenticates but announces no problems. *)
Definition problemless_handshake : list (string * Val) :=
  [("name", VStr "handshake"); ("id", VStr "judge1"); ("key", VStr "secret");
   ("executors", VDict [])].

(** Ping-responses that lack a field. *)
Definition timeless_ping_response : list (string * Val) :=
  [("name", VStr "ping-response"); ("when", VFloat 10%Q); ("load", VFloat (1 # 4))].

Definition whenless_ping_response : list (string * Val) :=
  [("name", VStr "ping-response"); ("time", VFloat 10%Q); ("load", VFloat (1 # 4))].

Definition loadless_ping_response : list (string * Val) :=
  [("name", VStr "ping-response"); ("when", VFloat 10%Q); ("time", VFloat 11%Q)].

(** The same judge with [is_disabled] set, as a scheduler that drains it
    would; the class itself only reads the field. *)
Definition drained_judge : JudgeHandler :=
  let '(mkHandler a b c d e f g i j k l _ n o p q r s t u w x y) := capable_judge in
  mkHandler a b c d e f g i j k l true n o p q r s t u w x y.

(** Twelve test-case results for submission 42 arriving at the same instant. *)
Definition twelve_results : list (float * Wire) :=
  map (fun case => (5%Q, Decoded (VDict (message "test-case-status" 42 ++ [("position", VInt case)]))))
      [1; 2; 3; 4; 5; 6; 7; 8; 9; 10; 11; 12].

(** Seven ping-responses with latencies 1 to 7. *)
Definition seven_pings : list Ping :=
  map (fun n => mkPing (inject_Z (11 * n))
                       (ping_response (inject_Z (10 * n)) (inject_Z (10 * n + 1)))
                       (inject_Z (10 * n)) (inject_Z (10 * n + 1)))
      [1; 2; 3; 4; 5; 6; 7].

(** * Properties *)

Unset Implicit Arguments.

Section Dispatch.
Context {R : Runtime}.

Ltac run := cbv [bind ret raise get modify emit lift send close]; cbn.

(** [submit] stores the id and makes the timer whatever the store answers. *)
Lemma submit_sets_working {P : Placeholders} :
  forall (h : JudgeHandler) (id problem language source : Val),
    _working (handler_after (submit id problem language source h)) = id.
Proof.
  intros h id problem language source. unfold submit.
  destruct (get_related_submission_data id); destruct h; reflexivity.
Qed.

Lemma submit_makes_timer {P : Placeholders} :
  forall (h : JudgeHandler) (id problem language source : Val),
    _no_response_job (handler_after (submit id problem language source h))
    = Some (mkTimer 20 the_kill_if_no_response false false).
Proof.
  intros h id problem language source. unfold submit.
  destruct (get_related_submission_data id); destruct h; reflexivity.
Qed.

(** The class has no test of [_working] in [submit]: were the store to answer,
    a busy handler would send a second request. *)
Remark submit_has_no_busy_guard {P : Placeholders} :
  forall (h : JudgeHandler) (id problem language source : Val) (data : SubmissionData Val),
    get_related_submission_data id = Some data ->
    outcome_of (submit id problem language source h) = Return tt /\
    exists m, sent (events_of (submit id problem language source h)) = [m].
Proof.
  intros h id problem language source data Hdata. unfold submit. rewrite Hdata.
  split; [reflexivity | eexists; reflexivity].
Qed.

(** With the metadata at hand [submit] runs to its end: the id is stored,
    the timer made and the one request sent. *)
Lemma submit_with_metadata {P : Placeholders} :
  forall (h : JudgeHandler) (id problem language source : Val) (data : SubmissionData Val),
    get_related_submission_data id = Some data ->
    exists m,
      submit id problem language source h
      = (Return tt,
         set__no_response_job (Some (mkTimer 20 the_kill_if_no_response false false))
                              (set__working id h),
         [Send m]) /\
      getitem m "name" = Return (VStr "submission-request") /\
      getitem m "submission-id" = Return id.
Proof.
  intros h id problem language source data Hdata. unfold submit. rewrite Hdata.
  eexists. split; [reflexivity | split; reflexivity].
Qed.


(** [_kill_if_no_response] logs and closes the socket. *)
Lemma kill_if_no_response_closes {P : Placeholders} :
  forall h : JudgeHandler,
    _kill_if_no_response h
    = (Return tt, h,
       [Log ERROR "Judge failed to acknowledge submission: %s: %s" [name h; _working h];
        Close]).
Proof. intro h. reflexivity. Qed.

(** A timer that was started does close the socket once its interval is over:
    the timer model is not what keeps the deadline from firing. *)
Lemma started_timer_closes {P : Placeholders} :
  forall (h : JudgeHandler) (t : Timer) (elapsed : Z),
    _no_response_job h = Some t ->
    due elapsed t = true ->
    closed (events_of (timer_elapse elapsed h)) = true.
Proof.
  intros h t elapsed Hjob Hdue. unfold timer_elapse. run.
  rewrite Hjob, Hdue. destruct (function t). reflexivity.
Qed.

(** C2. [submit] makes the 20-second acknowledgment timer but never calls
    [start()] on it: however long the judge stays silent the timer does not
    run, nothing is logged and the socket is not closed. *)
Theorem submit_never_starts_the_ack_timer {P : Placeholders} :
  forall (h : JudgeHandler) (id problem language source : Val) (elapsed : Z),
    let h1 := handler_after (submit id problem language source h) in
    _no_response_job h1 = Some (mkTimer 20 the_kill_if_no_response false false) /\
    timer_elapse elapsed h1 = (Return tt, h1, []).
Proof.
  intros h id problem language source elapsed h1.
  assert (Hjob : _no_response_job h1 = Some (mkTimer 20 the_kill_if_no_response false false))
    by apply submit_makes_timer.
  split; [exact Hjob |].
  unfold timer_elapse. run. rewrite Hjob. reflexivity.
Qed.

(** C3. When the store has no metadata for the id, [submit] raises
    [AttributeError] (the class has no [SubmissionDataUnavailable]) after it
    has already stored the id in [_working]: the handler is left marked busy
    although nothing was sent. *)
Theorem submit_without_metadata_leaves_handler_busy {P : Placeholders} :
  forall (h : JudgeHandler) (id problem language source : Val),
    get_related_submission_data id = None ->
    let r := submit id problem language source h in
    outcome_of r = Raise AttributeError /\
    _working (handler_after r) = id /\
    events_of r = [].
Proof.
  intros h id problem language source Hdata r. subst r.
  split; [| split].
  - unfold submit. rewrite Hdata. reflexivity.
  - apply submit_sets_working.
  - unfold submit. rewrite Hdata. reflexivity.
Qed.

End Dispatch.

Lemma submit_without_metadata_leaves_handler_busy_witness :
  get_related_submission_data (Placeholders := base) (VInt 42 : Val) = None /\
  let r := submit (P := base) (VInt 42) (VStr "aplusb") (VStr "PY3") (VStr "print(1)") idle_judge in
  outcome_of r = Raise AttributeError /\
  _working (handler_after r) = VInt 42 /\
  events_of r = [].
Proof.
  split; [reflexivity |].
  apply (submit_without_metadata_leaves_handler_busy (P := base)). reflexivity.
Defined.

(** ** What a method keeps *)

Section Keeping.
Context {R : Runtime} {X : Type} (f : JudgeHandler -> X).

Lemma keeps_ret {A : Type} (a : A) : keeps f (ret a).
Proof. intro h. reflexivity. Qed.

Lemma keeps_raise {A : Type} (e : Exc) : keeps f (raise (A := A) e).
Proof. intro h. reflexivity. Qed.

Lemma keeps_lift {A : Type} (r : Outcome A) : keeps f (lift r).
Proof. intro h. reflexivity. Qed.

Lemma keeps_get {A : Type} (g : JudgeHandler -> A) : keeps f (get g).
Proof. intro h. reflexivity. Qed.

Lemma keeps_emit (e : Event) : keeps f (emit e).
Proof. intro h. reflexivity. Qed.

Lemma keeps_modify (g : JudgeHandler -> JudgeHandler) :
  (forall h, f (g h) = f h) -> keeps f (modify g).
Proof. intros Hg h. apply Hg. Qed.

Lemma keeps_bind {A B : Type} (m : M A) (k : A -> M B) :
  keeps f m -> (forall a, keeps f (k a)) -> keeps f (bind m k).
Proof.
  intros Hm Hk h. unfold bind, handler_after.
  specialize (Hm h). unfold handler_after in Hm.
  destruct (m h) as [[[a | e] h1] ev1]; cbn in *.
  - specialize (Hk a h1). unfold handler_after in Hk.
    destruct (k a h1) as [[r h2] ev2]. cbn in *. congruence.
  - exact Hm.
Qed.

Lemma keeps_try_except {A : Type} (m k : M A) (handles : Exc -> bool) :
  keeps f m -> keeps f k -> keeps f (try_except m handles k).
Proof.
  intros Hm Hk h. unfold try_except, handler_after.
  specialize (Hm h). unfold handler_after in Hm.
  destruct (m h) as [[[a | e] h1] ev1]; cbn in *.
  - exact Hm.
  - destruct (handles e); cbn; [| exact Hm].
    specialize (Hk h1). unfold handler_after in Hk.
    destruct (k h1) as [[r h2] ev2]. cbn in *. congruence.
Qed.

End Keeping.

(** Breaks a method body down to its assignments. *)
Ltac keeping :=
  repeat first
    [ apply keeps_ret | apply keeps_raise | apply keeps_lift | apply keeps_get
    | apply keeps_emit | apply keeps_try_except
    | apply keeps_bind; [| intro]
    | match goal with
      | |- keeps _ (if ?b then _ else _) => destruct b
      | |- keeps _ (match ?x with _ => _ end) => destruct x
      | |- keeps _ (modify _) => apply keeps_modify; intros []; reflexivity
      end ].

Section Packets.
Context {R : Runtime} {P : Placeholders}.

(** *** The shape of [on_packet] *)

Lemma on_packet_unfold (clock : float) (data : Wire) :
  on_packet clock data = try_except (dispatch clock data) (fun _ => true) recover.
Proof. reflexivity. Qed.

Lemma make_json_log_audit (h : JudgeHandler) (info : string) :
  _make_json_log None (_working h) [("info", VStr info)] h
  = (Return (audit_record h info), h, []).
Proof.
  unfold _make_json_log, audit_record. cbv [bind get ret].
  destruct (is_none (_working h)); reflexivity.
Qed.

Lemma on_malformed_run (packet : Val) (h : JudgeHandler) :
  on_malformed packet h
  = (Return tt, h,
     [Log ERROR "%s: Malformed packet: %s" [name h; packet];
      JsonLog EXCEPTION (audit_record h "malformed json packet")]).
Proof.
  unfold on_malformed. cbv [bind get emit].
  rewrite make_json_log_audit. reflexivity.
Qed.

Lemma recover_run (h : JudgeHandler) : recover h = (Return tt, h, catch_all_events h).
Proof.
  unfold recover, _packet_exception. cbv [bind get emit].
  rewrite make_json_log_audit. reflexivity.
Qed.

Lemma try_except_return {A : Type} (m k : M A) (handles : Exc -> bool) h a h1 ev1 :
  m h = (Return a, h1, ev1) -> try_except m handles k h = (Return a, h1, ev1).
Proof. intro Hm. unfold try_except. rewrite Hm. reflexivity. Qed.

Lemma try_except_raise {A : Type} (m k : M A) h e h1 ev1 :
  m h = (Raise e, h1, ev1) ->
  try_except m (fun _ => true) k h
  = (let '(r, h2, ev2) := k h1 in (r, h2, ev1 ++ ev2)).
Proof. intro Hm. unfold try_except. rewrite Hm. reflexivity. Qed.

(** Whatever the body of the [try] does, [on_packet] returns: an exception
    ends in the log, not in the caller. *)
Lemma on_packet_returns (clock : float) (data : Wire) (h : JudgeHandler) :
  outcome_of (on_packet clock data h) = Return tt.
Proof.
  rewrite on_packet_unfold.
  destruct (dispatch clock data h) as [[[[] | e] h1] ev1] eqn:Hd.
  - rewrite (try_except_return _ _ _ h tt h1 ev1 Hd). reflexivity.
  - rewrite (try_except_raise _ _ h e h1 ev1 Hd), recover_run. reflexivity.
Qed.

(** The fields after [on_packet] are the fields the body of the [try] left. *)
Lemma on_packet_after (clock : float) (data : Wire) (h : JudgeHandler) :
  handler_after (on_packet clock data h) = handler_after (dispatch clock data h).
Proof.
  rewrite on_packet_unfold.
  destruct (dispatch clock data h) as [[[[] | e] h1] ev1] eqn:Hd.
  - rewrite (try_except_return _ _ _ h tt h1 ev1 Hd). reflexivity.
  - rewrite (try_except_raise _ _ h e h1 ev1 Hd), recover_run. reflexivity.
Qed.

Lemma assoc_in {A : Type} (k : string) (l : list (string * A)) (a : A) :
  assoc k l = Some a -> In a (map snd l).
Proof.
  induction l as [| [k' a'] l IH]; cbn; [discriminate |].
  destruct (String.eqb k k'); [intros [= ->]; left; reflexivity | right; auto].
Qed.

(** A handler [handlers.get] returns is [on_malformed] or an entry of the
    table. *)
Lemma handlers_get_table (clock : float) (key : Val) (handler : Val -> M unit) :
  handlers_get clock key = Return handler ->
  handler = on_malformed \/ In handler (map snd (handlers clock)).
Proof.
  unfold handlers_get. intro Hget.
  destruct key as [ | b | z | x | s | l | d]; try discriminate;
    try (injection Hget as <-; left; reflexivity).
  destruct (assoc s (handlers clock)) as [entry |] eqn:Hassoc; injection Hget as <-.
  - right. exact (assoc_in s _ entry Hassoc).
  - left. reflexivity.
Qed.

(** So the fields after a packet are the old ones, or the ones a handler
    left when called on the packet. *)
Lemma dispatch_after (clock : float) (data : Wire) (h : JudgeHandler) :
  handler_after (dispatch clock data h) = h \/
  exists handler : Val -> M unit,
    In handler (map snd (handlers clock)) /\
    handler_after (dispatch clock data h) = handler_after (handler (payload data) h).
Proof.
  destruct data as [raw | raw | v]; cbn [dispatch payload].
  - left. rewrite on_malformed_run. reflexivity.
  - left. reflexivity.
  - cbv [bind lift].
    destruct (contains "name" v) as [[] | e]; cbn [negb];
      [| left; rewrite on_malformed_run; reflexivity | left; reflexivity].
    destruct (getitem v "name") as [key | e]; [| left; reflexivity].
    destruct (handlers_get clock key) as [handler | e] eqn:Hget; [| left; reflexivity].
    destruct (handlers_get_table clock key handler Hget) as [-> | Hin].
    + left. rewrite on_malformed_run. reflexivity.
    + right. exists handler. split; [exact Hin |].
      destruct (handler v h) as [[r h2] ev2]. reflexivity.
Qed.

(** *** No inbound packet touches [_working] *)

Lemma handlers_keep__working (clock : float) :
  Forall (fun handler : Val -> M unit => forall packet, keeps _working (handler packet))
         (map snd (handlers clock)).
Proof.
  unfold handlers, map, snd.
  repeat (apply Forall_cons;
          [ intro packet;
            first [ apply keeps_ret
                  | unfold on_grading_begin, on_ping_response, on_handshake,
                      send, close, _connected, _update_ping; keeping ]
          | ]).
  apply Forall_nil.
Qed.

Lemma on_packet_keeps__working (clock : float) (data : Wire) :
  keeps _working (on_packet clock data).
Proof.
  intro h. rewrite on_packet_after.
  destruct (dispatch_after clock data h) as [-> | (handler & Hin & ->)]; [reflexivity |].
  pose proof (handlers_keep__working clock) as Hall.
  rewrite Forall_forall in Hall. exact (Hall handler Hin (payload data) h).
Qed.

(** C4. No inbound packet clears the current submission: after any sequence
    of packets, the terminal ones (grading-end, internal-error,
    submission-terminated, compile-error) included, [_working] and what
    [get_current_submission] returns are what they were before it.  The
    terminal handlers are empty. *)
Theorem no_inbound_message_clears_the_current_submission :
  forall (stream : list (float * Wire)) (h : JudgeHandler),
    _working (handler_after (on_packets stream h)) = _working h /\
    get_current_submission (handler_after (on_packets stream h))
    = get_current_submission h.
Proof.
  intros stream h.
  assert (Hk : _working (handler_after (on_packets stream h)) = _working h).
  { revert h. induction stream as [| [clock data] rest IH]; intro h; [reflexivity |].
    cbn [on_packets]. unfold bind.
    pose proof (on_packet_returns clock data h) as Hret.
    pose proof (on_packet_keeps__working clock data h) as Hw.
    destruct (on_packet clock data h) as [[r h1] ev1]. cbn in Hret, Hw. subst r.
    specialize (IH h1).
    destruct (on_packets rest h1) as [[r2 h2] ev2]. cbn in IH |- *. congruence. }
  split; [exact Hk |]. unfold get_current_submission. rewrite Hk. reflexivity.
Qed.

(** *** Packets no handler is found for *)

Lemma assoc_outside_catalogue (clock : float) (s : string) :
  existsb (String.eqb s) catalogue = false -> assoc s (handlers clock) = None.
Proof.
  intro H. cbn in H.
  repeat (apply orb_false_iff in H; destruct H as [? H]).
  cbn.
  repeat match goal with
         | Hx : String.eqb s _ = false |- _ => rewrite Hx; clear Hx
         end.
  reflexivity.
Qed.

(** Where the body of the [try] ends for a packet without a handler. *)
Lemma dispatch_unrouted (clock : float) (data : Wire) (h : JudgeHandler) :
  routed data = false ->
  if reaches_on_malformed data
  then dispatch clock data h = on_malformed (payload data) h
  else exists e, dispatch clock data h = (Raise e, h, []).
Proof.
  intro Hr.
  destruct data as [raw | raw | v]; [reflexivity | eexists; reflexivity |].
  destruct v as [ | b | z | x | s | l | d]; cbn [reaches_on_malformed payload dispatch];
    try (eexists; reflexivity).
  - cbv [bind lift contains getitem]. destruct (str_contains "name" s); cbn [negb].
    + eexists. reflexivity.
    + rewrite on_malformed_run. reflexivity.
  - cbv [bind lift contains getitem]. destruct (existsb (eq_str "name") l); cbn [negb].
    + eexists. reflexivity.
    + rewrite on_malformed_run. reflexivity.
  - unfold routed in Hr. cbv [bind lift contains getitem handlers_get].
    destruct (dict_get "name" d) as [key |]; cbn [negb];
      [| rewrite on_malformed_run; reflexivity].
    destruct key as [ | b | z | x | s | l' | d']; cbn [negb];
      try (rewrite on_malformed_run; reflexivity);
      try (eexists; reflexivity).
    rewrite Hr. cbn [negb]. rewrite (assoc_outside_catalogue clock s Hr).
    rewrite on_malformed_run. reflexivity.
Qed.

(** C5. A packet that decodes to a number is no well-formed object, and text
    nested too deeply does not decode; neither is handed to [on_malformed].
    ['name' not in data] raises [TypeError] on the number and [json.loads]
    raises [RecursionError] on the text; [except ValueError] lets both
    through, and the outer clause logs a packet-processing exception.  An
    object without a name does go to [on_malformed]. *)
Theorem stray_packets_bypass_on_malformed :
  forall (clock : float) (z : Z) (raw : string) (h : JudgeHandler),
    on_packet clock (Decoded (VInt z)) h = (Return tt, h, catch_all_events h) /\
    on_packet clock (Decoded (VInt z)) h <> on_malformed (VInt z) h /\
    on_packet clock (TooDeep raw) h = (Return tt, h, catch_all_events h) /\
    on_packet clock (TooDeep raw) h <> on_malformed (VStr raw) h /\
    (forall d, dict_get "name" d = None ->
               on_packet clock (Decoded (VDict d)) h = on_malformed (VDict d) h).
Proof.
  intros clock z raw h.
  assert (Hnum : on_packet clock (Decoded (VInt z)) h = (Return tt, h, catch_all_events h)).
  { rewrite on_packet_unfold.
    rewrite (try_except_raise _ _ h TypeError h []) by reflexivity.
    rewrite recover_run. reflexivity. }
  assert (Hdeep : on_packet clock (TooDeep raw) h = (Return tt, h, catch_all_events h)).
  { rewrite on_packet_unfold.
    rewrite (try_except_raise _ _ h RecursionError h []) by reflexivity.
    rewrite recover_run. reflexivity. }
  split; [exact Hnum | split; [| split; [exact Hdeep | split]]].
  - rewrite Hnum, on_malformed_run. unfold catch_all_events.
    intro Heq. discriminate Heq.
  - rewrite Hdeep, on_malformed_run. unfold catch_all_events.
    intro Heq. discriminate Heq.
  - intros d Hname.
    assert (Hr : routed (Decoded (VDict d)) = false)
      by (unfold routed; rewrite Hname; reflexivity).
    pose proof (dispatch_unrouted clock (Decoded (VDict d)) h Hr) as Hd.
    cbn [reaches_on_malformed payload] in Hd. rewrite Hname in Hd.
    rewrite on_packet_unfold.
    rewrite (try_except_return _ _ _ h tt h _ (eq_trans Hd (on_malformed_run _ h))).
    rewrite on_malformed_run. reflexivity.
Qed.

(** X25. A packet without a handler (text that does not decode, a value that
    is not an object, an object without a name or with a name outside the
    catalogue) is logged with an audit record, changes no field, and neither
    closes the socket nor sends anything.  It is [on_malformed] that logs it
    when the packet [reaches_on_malformed]; otherwise the exception it
    raises is logged by the [except Exception] clause. *)
Theorem unrouted_packet_is_logged_and_harmless :
  forall (clock : float) (data : Wire) (h : JudgeHandler),
    routed data = false ->
    let r := on_packet clock data h in
    r = (if reaches_on_malformed data
         then on_malformed (payload data) h
         else (Return tt, h, catch_all_events h)) /\
    handler_after r = h /\
    closed (events_of r) = false /\
    sent (events_of r) = [] /\
    exists record, In (JsonLog EXCEPTION record) (events_of r).
Proof.
  intros clock data h Hr r. subst r.
  pose proof (dispatch_unrouted clock data h Hr) as Hd.
  rewrite on_packet_unfold.
  destruct (reaches_on_malformed data).
  - rewrite (try_except_return _ _ _ h tt h _ (eq_trans Hd (on_malformed_run _ h))).
    rewrite on_malformed_run. cbn.
    repeat split. eexists. right. left. reflexivity.
  - destruct Hd as [e Hd].
    rewrite (try_except_raise _ _ h e h [] Hd), recover_run. cbn.
    repeat split. eexists. right. left. reflexivity.
Qed.

(** *** Handlers that are placeholders *)

Lemma empty_handler_does_nothing (clock : float) (s : string) (data : Wire)
    (h : JudgeHandler) :
  In s empty_handlers ->
  is_message s data ->
  on_packet clock data h = (Return tt, h, []).
Proof.
  intros Hin (d & -> & Hname). unfold on_packet.
  apply try_except_return. cbv [bind lift contains getitem handlers_get].
  rewrite Hname. cbn [negb].
  cbn in Hin.
  repeat (destruct Hin as [<- | Hin]; [reflexivity |]).
  contradiction.
Qed.

(** C8. A submission-acknowledged message, whatever id it carries, changes
    nothing: [on_submission_acknowledged] is empty, so the timer [submit]
    made is neither cancelled nor cleared, no field records a lifecycle
    state, and nothing is sent or logged. *)
Theorem submission_acknowledged_changes_nothing :
  forall (clock : float) (data : Wire) (h : JudgeHandler),
    is_message "submission-acknowledged" data ->
    on_packet clock data h = (Return tt, h, []).
Proof.
  intros clock data h Hmsg.
  apply (empty_handler_does_nothing clock "submission-acknowledged" data h); [| exact Hmsg].
  cbn. tauto.
Qed.

(** C9. No test-case result is forwarded anywhere: [on_test_case] is empty,
    and [UPDATE_RATE_LIMIT], [UPDATE_RATE_TIME] and [update_counter] are not
    used.  A stream of test-case-status messages, however fast it arrives,
    has no effect at all (so not more than five), and the last result is
    treated like every other. *)
Theorem test_case_results_are_not_forwarded :
  forall (stream : list (float * Wire)) (h : JudgeHandler),
    Forall (fun arrival => is_message "test-case-status" (snd arrival)) stream ->
    on_packets stream h = (Return tt, h, []) /\
    (length (events_of (on_packets stream h)) <= UPDATE_RATE_LIMIT)%nat.
Proof.
  intros stream h Hall.
  assert (Hrun : on_packets stream h = (Return tt, h, [])).
  { induction Hall as [| [clock data] rest Hmsg _ IH]; [reflexivity |].
    cbn [on_packets]. unfold bind.
    rewrite (empty_handler_does_nothing clock "test-case-status" data h);
      [| cbn; tauto | exact Hmsg].
    rewrite IH. reflexivity. }
  split; [exact Hrun |].
  rewrite Hrun. cbn. unfold UPDATE_RATE_LIMIT. lia.
Qed.

(** *** Handshakes that are turned away *)

Lemma on_handshake_rejects (d : list (string * Val)) (h : JudgeHandler) :
  dict_get "id" d = None \/ dict_get "key" d = None \/
  (exists id key, dict_get "id" d = Some id /\ dict_get "key" d = Some key /\
                  _authenticate id key = false) ->
  exists ev,
    on_handshake (VDict d) h = (Return tt, h, ev ++ [Close]) /\ sent ev = [].
Proof.
  intros Hbad. unfold on_handshake.
  cbv [bind lift contains getitem get emit close].
  destruct (dict_get "id" d) as [id |] eqn:Hid.
  - destruct (dict_get "key" d) as [key |] eqn:Hkey.
    + destruct Hbad as [Hbad | [Hbad | (id' & key' & Hid' & Hkey' & Hauth)]];
        try discriminate.
      injection Hid' as <-. injection Hkey' as <-.
      cbn. rewrite Hauth. cbn. exists []. split; reflexivity.
    + cbn. eexists [_]. split; reflexivity.
  - cbn. eexists [_]. split; reflexivity.
Qed.

(** C6. A handshake without an [id], without a [key], or with a credential
    [_authenticate] turns down gets no reply: nothing is sent, no field
    changes, and the last thing the handler does is close the socket. *)
Theorem rejected_handshake_closes_without_reply :
  forall (clock : float) (d : list (string * Val)) (h : JudgeHandler),
    dict_get "name" d = Some (VStr "handshake") ->
    dict_get "id" d = None \/ dict_get "key" d = None \/
    (exists id key, dict_get "id" d = Some id /\ dict_get "key" d = Some key /\
                    _authenticate id key = false) ->
    exists ev,
      on_packet clock (Decoded (VDict d)) h = (Return tt, h, ev ++ [Close]) /\
      sent (ev ++ [Close]) = [] /\
      closed (ev ++ [Close]) = true.
Proof.
  intros clock d h Hname Hbad.
  destruct (on_handshake_rejects d h Hbad) as (ev & Hrun & Hsent).
  exists ev. split; [| split].
  - unfold on_packet. apply try_except_return.
    cbv [bind lift contains getitem handlers_get]. rewrite Hname. cbn [negb].
    cbn [assoc handlers String.eqb Ascii.eqb Bool.eqb].
    rewrite Hrun. reflexivity.
  - unfold sent in *. rewrite flat_map_app, Hsent. reflexivity.
  - unfold closed. rewrite existsb_app. cbn. apply orb_true_r.
Qed.

End Packets.

(** ** The sample windows *)

Section Windows.
Context {A : Type}.


Lemma lastn_length (n : nat) (l : list A) : (length (lastn n l) <= n)%nat.
Proof. unfold lastn. rewrite length_skipn. lia. Qed.


(** On a deque that keeps to its bound, [append] keeps the newest [maxlen]
    items. *)
Lemma append_items (x : A) (d : deque A) :
  (length (items d) <= maxlen d)%nat ->
  items (append x d) = lastn (maxlen d) (items d ++ [x]).
Proof.
  intro Hle. unfold append, lastn. cbn [items]. rewrite length_app. cbn [length].
  destruct (Nat.ltb_spec (maxlen d) (length (items d) + 1)) as [Hlt | Hge].
  - replace (length (items d) + 1 - maxlen d)%nat with 1%nat by lia.
    destruct (items d ++ [x]); reflexivity.
  - replace (length (items d) + 1 - maxlen d)%nat with 0%nat by lia. reflexivity.
Qed.


Lemma append_bounded (x : A) (d : deque A) :
  (length (items d) <= maxlen d)%nat ->
  (length (items (append x d)) <= maxlen d)%nat.
Proof. intro Hle. rewrite append_items by exact Hle. apply lastn_length. Qed.

End Windows.

Section Heartbeat.
Context {R : Runtime} {P : Placeholders}.


Lemma windows_bounded_init (address : Val) : windows_bounded (init address).
Proof. unfold windows_bounded. cbn. lia. Qed.




(** *** The windows never exceed their capacity *)

Lemma keeps_windows_bounded {A : Type} (m : M A) :
  keeps windows m ->
  forall h, windows_bounded h -> windows_bounded (handler_after (m h)).
Proof.
  intros Hk h Hb. specialize (Hk h). unfold windows in Hk.
  injection Hk as Hpa Htd. unfold windows_bounded. rewrite Hpa, Htd. exact Hb.
Qed.

(** A ping-response that lacks a field, or carries one that is not a number,
    may add a sample to one window only; the bound holds all the same. *)
Lemma on_ping_response_keeps_windows_bounded (clock : float) (packet : Val)
    (h : JudgeHandler) :
  windows_bounded h ->
  windows_bounded (handler_after (on_ping_response clock packet h)).
Proof.
  intros (Hm1 & Hl1 & Hm2 & Hl2).
  assert (Hl1' : forall x, (length (items (append x (_ping_average h))) <= 6)%nat).
  { intro x. rewrite <- Hm1. apply append_bounded. lia. }
  assert (Hl2' : forall x, (length (items (append x (_time_delta h))) <= 6)%nat).
  { intro x. rewrite <- Hm2. apply append_bounded. lia. }
  destruct h. cbn in Hm1, Hl1, Hm2, Hl2, Hl1', Hl2'.
  unfold on_ping_response, handler_after, windows_bounded.
  cbv [bind lift get modify getitem _update_ping ret].
  destruct packet as [ | b | z | x | s | l | d]; cbn; try tauto.
  destruct (dict_get "when" d) as [wv |]; cbn; try tauto.
  destruct (as_float wv) as [w | e]; cbn; try tauto.
  destruct (dict_get "time" d) as [tv |]; cbn; [| auto].
  destruct (as_float tv) as [t | e]; cbn; [| auto].
  destruct (dict_get "load" d) as [lv |]; cbn; auto.
Qed.

Lemma handlers_keep_windows_bounded (clock : float) :
  Forall (fun handler : Val -> M unit =>
            forall packet h, windows_bounded h ->
                             windows_bounded (handler_after (handler packet h)))
         (map snd (handlers clock)).
Proof.
  unfold handlers, map, snd.
  repeat (apply Forall_cons;
          [ intros packet h Hb;
            first [ exact Hb
                  | apply on_ping_response_keeps_windows_bounded; exact Hb
                  | apply keeps_windows_bounded; [| exact Hb];
                    unfold on_grading_begin, on_handshake, send, close, _connected;
                    keeping ]
          | ]).
  apply Forall_nil.
Qed.

Lemma on_packet_keeps_windows_bounded (clock : float) (data : Wire) (h : JudgeHandler) :
  windows_bounded h -> windows_bounded (handler_after (on_packet clock data h)).
Proof.
  intro Hb. rewrite on_packet_after.
  destruct (dispatch_after clock data h) as [-> | (handler & Hin & ->)]; [exact Hb |].
  pose proof (handlers_keep_windows_bounded clock) as Hall.
  rewrite Forall_forall in Hall. exact (Hall handler Hin (payload data) h Hb).
Qed.

(** X2. Whatever the judge sends, in whatever order, neither window of a
    handler that started from [init] ever holds more than six samples. *)
Lemma windows_stay_bounded (stream : list (float * Wire)) (address : Val) :
  windows_bounded (handler_after (on_packets stream (init address))).
Proof.
  generalize (windows_bounded_init address). generalize (init address).
  induction stream as [| [clock data] rest IH]; intros h Hb; [exact Hb |].
  cbn [on_packets]. unfold bind.
  pose proof (on_packet_returns clock data h) as Hret.
  pose proof (on_packet_keeps_windows_bounded clock data h Hb) as Hb1.
  destruct (on_packet clock data h) as [[r h1] ev1]. cbn in Hret, Hb1. subst r.
  specialize (IH h1 Hb1).
  destruct (on_packets rest h1) as [[r2 h2] ev2]. exact IH.
Qed.

End Heartbeat.

Section Reporting.
Context {R : Runtime} {P : Placeholders}.

(** After [submit] with a falsy id the handler reports itself idle:
    [working] is false and [get_current_submission] returns [None], whatever
    else the call did. *)
Lemma falsy_id_reports_idle :
  forall (h : JudgeHandler) (id problem language source : Val),
    truthy id = false ->
    let h' := handler_after (submit id problem language source h) in
    working h' = false /\ get_current_submission h' = VNone.
Proof.
  intros h id problem language source Hfalsy h'. subst h'.
  unfold working, get_current_submission.
  rewrite submit_sets_working, Hfalsy. split; reflexivity.
Qed.

(** Where the store has the metadata of the falsy id, the request is sent and
    the handler reports itself idle all the same. *)
Lemma falsy_id_request_is_sent_where_the_store_answers :
  forall (h : JudgeHandler) (id problem language source : Val) (data : SubmissionData Val),
    truthy id = false ->
    get_related_submission_data id = Some data ->
    let r := submit id problem language source h in
    working (handler_after r) = false /\
    get_current_submission (handler_after r) = VNone /\
    outcome_of r = Return tt /\
    exists m, sent (events_of r) = [m] /\
              getitem m "name" = Return (VStr "submission-request") /\
              getitem m "submission-id" = Return id.
Proof.
  intros h id problem language source data Hfalsy Hdata r.
  destruct (falsy_id_reports_idle h id problem language source Hfalsy) as (Hw & Hc).
  destruct (submit_with_metadata h id problem language source data Hdata)
    as (m & Hrun & Hname & Hid).
  subst r. split; [exact Hw | split; [exact Hc |]].
  rewrite Hrun. split; [reflexivity |]. exists m. repeat split; assumption.
Qed.

(** C10. [submit] with a falsy id on a store that has no metadata for it, as
    [get_related_submission_data] of the class has none for any id: the
    handler reports itself idle, but no submission-request was sent.  The
    call raised [AttributeError] on [data.time] before it reached [send]. *)
Theorem falsy_id_dispatch_without_metadata_sends_nothing :
  forall (h : JudgeHandler) (id problem language source : Val),
    truthy id = false ->
    get_related_submission_data id = None ->
    let r := submit id problem language source h in
    working (handler_after r) = false /\
    get_current_submission (handler_after r) = VNone /\
    outcome_of r = Raise AttributeError /\
    events_of r = [].
Proof.
  intros h id problem language source Hfalsy Hdata r.
  destruct (falsy_id_reports_idle h id problem language source Hfalsy) as (Hw & Hc).
  subst r. split; [exact Hw | split; [exact Hc |]].
  unfold submit. rewrite Hdata. split; reflexivity.
Qed.

End Reporting.

(** * Runs on example judges *)

(** The store is the one of the class as the source has it ([base]) unless
    a run names [stocked]. *)



(** C4, as stated: the four terminal messages for submission 42 reach a
    handler working on 42, and each leaves 42 the current submission. *)
Lemma terminal_messages_do_not_clear_counterexample :
  get_current_submission busy_judge = VInt 42 /\
  Forall (fun name =>
            get_current_submission
              (handler_after (on_packet (R := exact) (P := base) 5%Q (Decoded (VDict (message name 42))) busy_judge))
            <> VNone)
         ["grading-end"; "internal-error"; "submission-terminated"; "compile-error"].
Proof.
  split; [reflexivity |].
  repeat constructor; vm_compute; discriminate.
Qed.

Lemma rejected_handshake_closes_without_reply_witness :
  dict_get "name" keyless_handshake = Some (VStr "handshake") /\
  dict_get "key" keyless_handshake = None /\
  exists ev,
    on_packet (R := exact) (P := base) 5%Q (Decoded (VDict keyless_handshake)) idle_judge
    = (Return tt, idle_judge, ev ++ [Close]) /\
    sent (ev ++ [Close]) = [] /\
    closed (ev ++ [Close]) = true.
Proof.
  split; [reflexivity | split; [reflexivity |]].
  apply (rejected_handshake_closes_without_reply (R := exact) (P := base) 5%Q keyless_handshake idle_judge).
  - reflexivity.
  - right. left. reflexivity.
Defined.

Lemma seven_pings_are_ping_responses : Forall is_ping_response seven_pings.
Proof.
  repeat constructor; cbn; eexists; split; reflexivity.
Qed.




(** With capacity six, the seventh sample evicts the first, and the latency
    is the mean of the six that are left. *)
Example seventh_sample_evicts_the_first :
  let h' := handler_after (on_packets (P := base) (map arrival seven_pings) idle_judge) in
  items (_ping_average h') = [2; 3; 4; 5; 6; 7]%Q /\
  latency h' = Some (27 # 6).
Proof. split; reflexivity. Qed.

(** C8, as stated: after the acknowledgment of 42 the timer [submit] made is
    still there, not cancelled, and no reading of the lifecycle off the
    handler can have moved from Requested to Acknowledged, the handler being
    what it was. *)
Lemma acknowledgment_disarms_nothing_counterexample :
  let r := on_packet (R := exact) (P := base) 5%Q
             (Decoded (VDict (message "submission-acknowledged" 42))) busy_judge in
  disarmed (handler_after r) = false /\
  forall phase : JudgeHandler -> Lifecycle,
    phase busy_judge = Requested -> phase (handler_after r) <> Acknowledged.
Proof.
  intro r. split; [reflexivity |].
  intros phase Hphase.
  change (handler_after r) with busy_judge. rewrite Hphase. discriminate.
Qed.

Lemma submission_acknowledged_changes_nothing_witness :
  is_message "submission-acknowledged"
             (Decoded (VDict (message "submission-acknowledged" 42))) /\
  on_packet (R := exact) (P := base) 5%Q (Decoded (VDict (message "submission-acknowledged" 42))) busy_judge
  = (Return tt, busy_judge, []).
Proof.
  assert (Hmsg : is_message "submission-acknowledged"
                            (Decoded (VDict (message "submission-acknowledged" 42)))).
  { eexists. split; reflexivity. }
  split; [exact Hmsg |].
  apply (submission_acknowledged_changes_nothing (R := exact) (P := base) 5%Q _ busy_judge Hmsg).
Defined.

(** C9, as stated: the last of the twelve results leaves no trace, neither
    outside nor in the handler; it is dropped like the eleven before it. *)
Lemma final_test_case_result_is_dropped_counterexample :
  ~ leaves_trace busy_judge
      (on_packet (R := exact) (P := base) 5%Q
         (Decoded (VDict (message "test-case-status" 42 ++ [("position", VInt 12)])))
         busy_judge) /\
  ~ leaves_trace busy_judge (on_packets (P := base) twelve_results busy_judge).
Proof.
  split; intros [Hev | Hh]; [apply Hev | apply Hh | apply Hev | apply Hh]; reflexivity.
Qed.

Lemma twelve_results_are_test_cases :
  Forall (fun arrival => is_message "test-case-status" (snd arrival)) twelve_results.
Proof.
  repeat constructor; eexists; split; reflexivity.
Qed.

Lemma test_case_results_are_not_forwarded_witness :
  Forall (fun arrival => is_message "test-case-status" (snd arrival)) twelve_results /\
  on_packets (P := base) twelve_results busy_judge = (Return tt, busy_judge, []) /\
  (length (events_of (on_packets (P := base) twelve_results busy_judge))
   <= UPDATE_RATE_LIMIT)%nat.
Proof.
  split; [exact twelve_results_are_test_cases |].
  apply (test_case_results_are_not_forwarded (P := base) twelve_results busy_judge).
  exact twelve_results_are_test_cases.
Defined.

Lemma falsy_id_dispatch_without_metadata_sends_nothing_witness :
  truthy (VInt 0 : Val) = false /\
  get_related_submission_data (Placeholders := base) (VInt 0) = None /\
  let r := submit (P := base) (VInt 0) (VStr "aplusb") (VStr "PY3") (VStr "print(1)")
                  idle_judge in
  working (handler_after r) = false /\
  get_current_submission (handler_after r) = VNone /\
  outcome_of r = Raise AttributeError /\
  events_of r = [].
Proof.
  split; [reflexivity | split; [reflexivity |]].
  apply (falsy_id_dispatch_without_metadata_sends_nothing (R := exact) (P := base)
           idle_judge (VInt 0) (VStr "aplusb") (VStr "PY3") (VStr "print(1)"));
    reflexivity.
Defined.

(** With the metadata in the store the same call does send its request. *)
Example falsy_id_request_goes_out_of_a_stocked_store :
  let r := submit (P := stocked) (VInt 0) (VStr "aplusb") (VStr "PY3") (VStr "print(1)")
                  idle_judge in
  working (handler_after r) = false /\
  get_current_submission (handler_after r) = VNone /\
  length (sent (events_of r)) = 1%nat.
Proof. repeat split. Qed.

(** The packet [5] arrives while the judge works on 42: what is logged is a
    packet-processing exception. *)
Example number_packet_is_logged_by_the_catch_all :
  events_of (on_packet (R := exact) (P := base) 5%Q (Decoded (VInt 5)) busy_judge)
  = [Log EXCEPTION "Error in packet handling (Judge-side): %s" [VNone];
     JsonLog EXCEPTION
       (VDict [("judge", VNone); ("address", VNone); ("submission", VInt 42);
               ("info", VStr "packet processing exception")])].
Proof. reflexivity. Qed.

Lemma unrouted_packet_is_logged_and_harmless_witness :
  routed (Decoded (VDict (message "no-such-message" 42))) = false /\
  let r := on_packet (R := exact) (P := base) 5%Q
             (Decoded (VDict (message "no-such-message" 42))) busy_judge in
  r = (if reaches_on_malformed (Decoded (VDict (message "no-such-message" 42)))
       then on_malformed (payload (Decoded (VDict (message "no-such-message" 42)))) busy_judge
       else (Return tt, busy_judge, catch_all_events busy_judge)) /\
  handler_after r = busy_judge /\
  closed (events_of r) = false /\
  sent (events_of r) = [] /\
  exists record, In (JsonLog EXCEPTION record) (events_of r).
Proof.
  split; [reflexivity |].
  apply (unrouted_packet_is_logged_and_harmless (R := exact) (P := base) 5%Q
           (Decoded (VDict (message "no-such-message" 42))) busy_judge).
  reflexivity.
Defined.

(** Where [_authenticate] turns a judge down, a handshake with every field
    is answered by closing the socket, and by nothing else. *)
Example turned_down_credential_closes :
  on_packet (R := exact) (P := nobody) 5%Q (Decoded (VDict full_handshake)) idle_judge
  = (Return tt, idle_judge, [Close]).
Proof. reflexivity. Qed.

(** Where it lets the judge in, the handshake is answered and the ping thread
    started. *)
Example accepted_handshake_replies :
  events_of (on_packet (R := exact) (P := base) 5%Q (Decoded (VDict full_handshake)) idle_judge)
  = [Send (VDict [("name", VStr "handshake-success")]);
     Log INFO "Judge authenticated: %s (%s)" [VStr "10.0.0.7"; VStr "judge1"];
     StartThread the_ping_thread].
Proof. reflexivity. Qed.

(** * The rest of the class *)

(** ** Quiet calls *)

Section Quiet.
Context {R : Runtime}.

Lemma closed_app (ev1 ev2 : list Event) : closed (ev1 ++ ev2) = closed ev1 || closed ev2.
Proof. unfold closed. apply existsb_app. Qed.

Lemma sent_app (ev1 ev2 : list Event) : sent (ev1 ++ ev2) = sent ev1 ++ sent ev2.
Proof. unfold sent. apply flat_map_app. Qed.

Lemma quiet_ret {A : Type} (a : A) : quiet (ret a).
Proof. intro h. split; reflexivity. Qed.

Lemma quiet_raise {A : Type} (e : Exc) : quiet (raise (A := A) e).
Proof. intro h. split; reflexivity. Qed.

Lemma quiet_lift {A : Type} (r : Outcome A) : quiet (lift r).
Proof. intro h. split; reflexivity. Qed.

Lemma quiet_get {A : Type} (g : JudgeHandler -> A) : quiet (get g).
Proof. intro h. split; reflexivity. Qed.

Lemma quiet_modify (g : JudgeHandler -> JudgeHandler) : quiet (modify g).
Proof. intro h. split; reflexivity. Qed.

Lemma quiet_log (lvl : Level) (fmt : string) (args : list Val) :
  quiet (emit (Log lvl fmt args)).
Proof. intro h. split; reflexivity. Qed.

Lemma quiet_json_log (lvl : Level) (record : Val) : quiet (emit (JsonLog lvl record)).
Proof. intro h. split; reflexivity. Qed.

Lemma quiet_bind {A B : Type} (m : M A) (k : A -> M B) :
  quiet m -> (forall a, quiet (k a)) -> quiet (bind m k).
Proof.
  intros Hm Hk h. unfold bind, events_of.
  destruct (Hm h) as [Hc Hs]. unfold events_of in Hc, Hs.
  destruct (m h) as [[[a | e] h1] ev1]; cbn [snd fst] in *.
  - destruct (Hk a h1) as [Hc2 Hs2]. unfold events_of in Hc2, Hs2.
    destruct (k a h1) as [[r h2] ev2]. cbn [snd fst] in *.
    rewrite closed_app, sent_app, Hc, Hs, Hc2, Hs2. split; reflexivity.
  - split; assumption.
Qed.

Lemma quiet_try_except {A : Type} (m k : M A) (handles : Exc -> bool) :
  quiet m -> quiet k -> quiet (try_except m handles k).
Proof.
  intros Hm Hk h. unfold try_except, events_of.
  destruct (Hm h) as [Hc Hs]. unfold events_of in Hc, Hs.
  destruct (m h) as [[[a | e] h1] ev1]; cbn [snd fst] in *.
  - split; assumption.
  - destruct (handles e); cbn; [| split; assumption].
    destruct (Hk h1) as [Hc2 Hs2]. unfold events_of in Hc2, Hs2.
    destruct (k h1) as [[r h2] ev2]. cbn [snd fst] in *.
    rewrite closed_app, sent_app, Hc, Hs, Hc2, Hs2. split; reflexivity.
Qed.

End Quiet.

(** Breaks a method body down to its effects. *)
Ltac quieting :=
  repeat first
    [ apply quiet_ret | apply quiet_raise | apply quiet_lift | apply quiet_get
    | apply quiet_modify | apply quiet_log | apply quiet_json_log
    | apply quiet_try_except
    | apply quiet_bind; [| intro]
    | match goal with
      | |- quiet (if ?b then _ else _) => destruct b
      | |- quiet (match ?x with _ => _ end) => destruct x
      end ].

Section Routing.
Context {R : Runtime} {P : Placeholders}.

(** What [on_packet] makes of what the body of its [try] did. *)
Lemma on_packet_run (clock : float) (data : Wire) (h : JudgeHandler) :
  on_packet clock data h
  = match dispatch clock data h with
    | (Raise e, h1, ev1) => (Return tt, h1, ev1 ++ catch_all_events h1)
    | done => done
    end.
Proof.
  rewrite on_packet_unfold.
  destruct (dispatch clock data h) as [[[[] | e] h1] ev1] eqn:Hd.
  - exact (try_except_return _ _ _ h tt h1 ev1 Hd).
  - rewrite (try_except_raise _ _ h e h1 ev1 Hd), recover_run. reflexivity.
Qed.

(** A message with a name runs the handler [handlers.get] finds for it. *)
Lemma dispatch_named (clock : float) (d : list (string * Val)) (key : Val)
    (handler : Val -> M unit) (h : JudgeHandler) :
  dict_get "name" d = Some key ->
  handlers_get clock key = Return handler ->
  dispatch clock (Decoded (VDict d)) h = handler (VDict d) h.
Proof.
  intros Hname Hget. cbn [dispatch]. cbv [bind lift contains getitem].
  rewrite Hname. cbn [negb]. rewrite Hget.
  destruct (handler (VDict d) h) as [[r h2] ev2]. reflexivity.
Qed.

(** The body of the [try] hands the packet to [on_malformed], raises before
    any handler ran, or runs the handler found for the name. *)
Lemma dispatch_cases (clock : float) (data : Wire) (h : JudgeHandler) :
  dispatch clock data h = on_malformed (payload data) h \/
  (exists e, dispatch clock data h = (Raise e, h, [])) \/
  (exists d key handler,
      data = Decoded (VDict d) /\ dict_get "name" d = Some key /\
      handlers_get clock key = Return handler /\
      dispatch clock data h = handler (VDict d) h).
Proof.
  destruct data as [raw | raw | v]; [left; reflexivity | right; left; eexists; reflexivity |].
  destruct v as [ | b | z | x | s | l | d]; cbn [dispatch payload];
    try (right; left; eexists; reflexivity).
  - cbv [bind lift contains getitem]. destruct (str_contains "name" s); cbn [negb].
    + right. left. eexists. reflexivity.
    + left. destruct (on_malformed (VStr s) h) as [[r h2] ev2]. reflexivity.
  - cbv [bind lift contains getitem]. destruct (existsb (eq_str "name") l); cbn [negb].
    + right. left. eexists. reflexivity.
    + left. destruct (on_malformed (VList l) h) as [[r h2] ev2]. reflexivity.
  - destruct (dict_get "name" d) as [key |] eqn:Hname.
    + destruct (handlers_get clock key) as [handler | e] eqn:Hget.
      * right. right. exists d, key, handler.
        repeat split; try assumption. exact (dispatch_named clock d key handler h Hname Hget).
      * right. left. exists e. cbv [bind lift contains getitem].
        rewrite Hname. cbn [negb]. rewrite Hget. reflexivity.
    + left. cbv [bind lift contains]. rewrite Hname. cbn [negb].
      destruct (on_malformed (VDict d) h) as [[r h2] ev2]. reflexivity.
Qed.

(** The handlers by what they do: the three with a body, and the empty ones. *)
Lemma handlers_get_cases (clock : float) (key : Val) (handler : Val -> M unit) :
  handlers_get clock key = Return handler ->
  handler = on_malformed \/
  (key = VStr "handshake" /\ handler = on_handshake) \/
  handler = on_ping_response clock \/
  handler = on_grading_begin \/
  (forall packet, handler packet = ret tt).
Proof.
  unfold handlers_get. intro Hget.
  destruct key as [ | b | z | x | s | l | d]; try discriminate;
    try (injection Hget as <-; left; reflexivity).
  injection Hget as <-. cbn [assoc handlers].
  repeat match goal with
         | |- context [String.eqb s ?n] =>
             destruct (String.eqb_spec s n) as [-> | ?];
             [ first [ right; right; right; right; intro; reflexivity
                     | right; right; right; left; reflexivity
                     | right; right; left; reflexivity
                     | right; left; split; reflexivity ] |]
         end.
  left. reflexivity.
Qed.

End Routing.

Section Inbound.
Context {R : Runtime} {P : Placeholders}.

(** X1. [on_packet] never lets an exception out: a whole stream of packets,
    whatever they are, is handled to the end and the loop that feeds them
    returns normally. *)
Theorem on_packets_never_raises :
  forall (stream : list (float * Wire)) (h : JudgeHandler),
    outcome_of (on_packets stream h) = Return tt.
Proof.
  induction stream as [| [clock data] rest IH]; intro h; [reflexivity |].
  cbn [on_packets]. unfold bind.
  pose proof (on_packet_returns clock data h) as Hret.
  destruct (on_packet clock data h) as [[r h1] ev1]. cbn in Hret. subst r.
  specialize (IH h1). destruct (on_packets rest h1) as [[r2 h2] ev2]. exact IH.
Qed.

Lemma on_malformed_quiet (packet : Val) : quiet (on_malformed packet).
Proof. intro h. rewrite on_malformed_run. split; reflexivity. Qed.

Lemma on_ping_response_quiet (clock : float) (packet : Val) :
  quiet (on_ping_response clock packet).
Proof. unfold on_ping_response, _update_ping. quieting. Qed.

Lemma on_grading_begin_quiet (packet : Val) : quiet (on_grading_begin packet).
Proof. unfold on_grading_begin. quieting. Qed.

(** X8. Only a handshake makes [on_packet] talk back or hang up: for every
    other packet, well-formed or not, nothing is sent and the socket is not
    closed. *)
Theorem only_a_handshake_is_answered :
  forall (clock : float) (data : Wire) (h : JudgeHandler),
    names_handshake data = false ->
    closed (events_of (on_packet clock data h)) = false /\
    sent (events_of (on_packet clock data h)) = [].
Proof.
  intros clock data h Hnh.
  assert (Hd : closed (events_of (dispatch clock data h)) = false /\
               sent (events_of (dispatch clock data h)) = []).
  { destruct (dispatch_cases clock data h)
      as [-> | [[e ->] | (d & key & handler & -> & Hname & Hget & ->)]].
    - apply on_malformed_quiet.
    - split; reflexivity.
    - destruct (handlers_get_cases clock key handler Hget)
        as [-> | [[-> _] | [-> | [-> | Hempty]]]].
      + apply on_malformed_quiet.
      + cbn in Hnh. rewrite Hname in Hnh. discriminate Hnh.
      + apply on_ping_response_quiet.
      + apply on_grading_begin_quiet.
      + rewrite Hempty. split; reflexivity. }
  rewrite on_packet_run.
  destruct (dispatch clock data h) as [[[[] | e] h1] ev1]; [exact Hd |].
  destruct Hd as [Hc Hs]. unfold events_of in *. cbn [snd] in *.
  rewrite closed_app, sent_app, Hc, Hs. split; reflexivity.
Qed.

Lemma on_packet_keeps (X : Type) (f : JudgeHandler -> X) (clock : float) (data : Wire) :
  (forall packet, keeps f (on_ping_response clock packet)) ->
  (forall packet, keeps f (on_grading_begin packet)) ->
  (names_handshake data = false \/ forall packet, keeps f (on_handshake packet)) ->
  keeps f (on_packet clock data).
Proof.
  intros Hping Hgb Hhs h. rewrite on_packet_after.
  destruct (dispatch_cases clock data h)
    as [-> | [[e ->] | (d & key & handler & -> & Hname & Hget & ->)]].
  - rewrite on_malformed_run. reflexivity.
  - reflexivity.
  - destruct (handlers_get_cases clock key handler Hget)
      as [-> | [[-> ->] | [-> | [-> | Hempty]]]].
    + rewrite on_malformed_run. reflexivity.
    + destruct Hhs as [Hnh | Hhs]; [| apply Hhs].
      cbn in Hnh. rewrite Hname in Hnh. discriminate Hnh.
    + apply Hping.
    + apply Hgb.
    + rewrite Hempty. reflexivity.
Qed.

(** X9. No packet from the judge touches what a dispatch set up or the
    scheduler's switches: [_working], the acknowledgment timer in
    [_no_response_job], [is_disabled] and the stop flag of the ping thread
    are the same after [on_packet] as before, for every packet. *)
Theorem no_packet_touches_the_assignment :
  forall (clock : float) (data : Wire) (h : JudgeHandler),
    assignment (handler_after (on_packet clock data h)) = assignment h.
Proof.
  intros clock data. apply on_packet_keeps.
  - intro packet. unfold on_ping_response, _update_ping. keeping.
  - intro packet. unfold on_grading_begin. keeping.
  - right. intro packet. unfold on_handshake, send, close, _connected. keeping.
Qed.

(** X10. Who the judge is and what it can judge change with a handshake and
    with nothing else: every other packet leaves [name], [timeout],
    [_problems], [problems] and [executors] as they were. *)
Theorem only_a_handshake_changes_the_identity :
  forall (clock : float) (data : Wire) (h : JudgeHandler),
    names_handshake data = false ->
    identity (handler_after (on_packet clock data h)) = identity h.
Proof.
  intros clock data h Hnh. revert h. apply on_packet_keeps.
  - intro packet. unfold on_ping_response, _update_ping. keeping.
  - intro packet. unfold on_grading_begin. keeping.
  - left. exact Hnh.
Qed.

End Inbound.

Section Edges.
Context {R : Runtime} {P : Placeholders}.

Lemma on_packet_named (clock : float) (d : list (string * Val)) (s : string)
    (handler : Val -> M unit) (h : JudgeHandler) :
  dict_get "name" d = Some (VStr s) ->
  assoc s (handlers clock) = Some handler ->
  on_packet clock (Decoded (VDict d)) h
  = match handler (VDict d) h with
    | (Raise e, h1, ev1) => (Return tt, h1, ev1 ++ catch_all_events h1)
    | done => done
    end.
Proof.
  intros Hname Hassoc. rewrite on_packet_run.
  rewrite (dispatch_named clock d (VStr s) handler h Hname); [reflexivity |].
  unfold handlers_get. rewrite Hassoc. reflexivity.
Qed.

(** X3. A ping-response without a [when], or with a [when] that is not a
    number, changes nothing: no sample, no new estimate, the load as it was;
    the exception it raises is logged and that is all. *)
Theorem ping_response_without_when_changes_nothing :
  forall (clock : float) (d : list (string * Val)) (h : JudgeHandler),
    dict_get "name" d = Some (VStr "ping-response") ->
    dict_get "when" d = None \/
    (exists v e, dict_get "when" d = Some v /\ as_float v = Raise e) ->
    on_packet clock (Decoded (VDict d)) h = (Return tt, h, catch_all_events h).
Proof.
  intros clock d h Hname Hwhen.
  rewrite (on_packet_named clock d "ping-response" (on_ping_response clock) h Hname)
    by reflexivity.
  unfold on_ping_response. cbv [bind lift getitem].
  destruct Hwhen as [Hw | (v & e & Hw & Hf)]; rewrite Hw; [reflexivity |].
  rewrite Hf. reflexivity.
Qed.


(** X5. A ping-response without a [load] still counts as a heartbeat: both
    samples are taken and both estimates recomputed before the exception is
    raised; only [load] keeps its old value. *)
Theorem ping_response_without_load_is_still_measured :
  forall (clock : float) (d : list (string * Val)) (w t : float) (h : JudgeHandler),
    dict_get "name" d = Some (VStr "ping-response") ->
    (exists v, dict_get "when" d = Some v /\ as_float v = Return w) ->
    (exists v, dict_get "time" d = Some v /\ as_float v = Return t) ->
    dict_get "load" d = None ->
    let h1 := handler_after (on_packet clock (Decoded (VDict d)) h) in
    on_packet clock (Decoded (VDict d)) h = (Return tt, h1, catch_all_events h) /\
    _ping_average h1 = append (latency_sample clock w) (_ping_average h) /\
    _time_delta h1 = append (clock_offset_sample clock w t) (_time_delta h) /\
    latency h1 = Some (mean (_ping_average h1)) /\
    time_delta h1 = Some (mean (_time_delta h1)) /\
    load h1 = load h.
Proof.
  intros clock d w t h Hname (wv & Hw & Hwf) (tv & Ht & Htf) Hload.
  rewrite (on_packet_named clock d "ping-response" (on_ping_response clock) h Hname)
    by reflexivity.
  unfold on_ping_response. cbv [bind lift getitem get modify].
  rewrite Hw, Hwf, Ht, Htf, Hload. destruct h. cbn. repeat split.
Qed.

(** X6. A handshake with an [id], a [key] that [_authenticate] accepts, and
    [problems] and [executors] that [dict] can read is answered with
    handshake-success and nothing else: the timeout becomes 60, the judge
    gets its name and capabilities, the ping thread is started, the socket
    stays open. *)
Theorem accepted_handshake_registers_the_judge :
  forall (clock : float) (d : list (string * Val)) (id key ps pd ex : Val)
         (h : JudgeHandler),
    dict_get "name" d = Some (VStr "handshake") ->
    dict_get "id" d = Some id ->
    dict_get "key" d = Some key ->
    _authenticate id key = true ->
    dict_get "problems" d = Some ps ->
    py_dict ps = Return pd ->
    dict_get "executors" d = Some ex ->
    on_packet clock (Decoded (VDict d)) h
    = (Return tt,
       set_name id (set_executors ex (set_problems pd (set__problems ps
         (set_timeout (Some 60) h)))),
       [Send (VDict [("name", VStr "handshake-success")]);
        Log INFO "Judge authenticated: %s (%s)" [client_address h; id];
        StartThread the_ping_thread]).
Proof.
  intros clock d id key ps pd ex h Hname Hid Hkey Hauth Hps Hpd Hex.
  rewrite (on_packet_named clock d "handshake" on_handshake h Hname) by reflexivity.
  unfold on_handshake, send, close, _connected.
  cbv [bind lift contains getitem get modify emit ret].
  rewrite Hid, Hkey. cbn [negb orb]. rewrite Hauth. cbn [negb].
  rewrite Hps, Hpd, Hex. destruct h. reflexivity.
Qed.

(** X7. A handshake that authenticates but announces no [problems] leaves
    the judge half registered: the timeout is already 60 when [KeyError] is
    raised, but the judge has no name, gets no reply, no ping thread, and
    the socket is not closed. *)
Theorem handshake_without_problems_only_widens_the_timeout :
  forall (clock : float) (d : list (string * Val)) (id key : Val) (h : JudgeHandler),
    dict_get "name" d = Some (VStr "handshake") ->
    dict_get "id" d = Some id ->
    dict_get "key" d = Some key ->
    _authenticate id key = true ->
    dict_get "problems" d = None ->
    on_packet clock (Decoded (VDict d)) h
    = (Return tt, set_timeout (Some 60) h, catch_all_events h).
Proof.
  intros clock d id key h Hname Hid Hkey Hauth Hps.
  rewrite (on_packet_named clock d "handshake" on_handshake h Hname) by reflexivity.
  unfold on_handshake, send, close, _connected.
  cbv [bind lift contains getitem get modify emit ret].
  rewrite Hid, Hkey. cbn [negb orb]. rewrite Hauth. cbn [negb].
  rewrite Hps. destruct h. reflexivity.
Qed.

(** X19. grading-begin resets [batch_id] and logs the submission it names;
    without a [submission-id] the log call raises first and [batch_id] is
    not reset.  Nothing else changes either way. *)
Theorem grading_begin_resets_the_batch :
  forall (clock : float) (d : list (string * Val)) (h : JudgeHandler),
    dict_get "name" d = Some (VStr "grading-begin") ->
    on_packet clock (Decoded (VDict d)) h
    = match dict_get "submission-id" d with
      | Some sid =>
          (Return tt, set_batch_id VNone h,
           [Log INFO "%s: Grading has begun on: %s" [name h; sid]])
      | None => (Return tt, h, catch_all_events h)
      end.
Proof.
  intros clock d h Hname.
  rewrite (on_packet_named clock d "grading-begin" on_grading_begin h Hname)
    by reflexivity.
  unfold on_grading_begin. cbv [bind lift getitem get modify emit].
  destruct (dict_get "submission-id" d); destruct h; reflexivity.
Qed.

End Edges.

Section Leaving.
Context {R : Runtime} {P : Placeholders}.

Lemma on_disconnect_run (h : JudgeHandler) :
  on_disconnect h
  = (Return tt, set__stop_ping true h,
     (if truthy (_working h) then [loss_record h] else [])
     ++ [Log INFO "Judge disconnected from: %s with name %s" [client_address h; name h];
         JsonLog INFO
           (VDict [("judge", name h); ("address", judge_address h);
                   ("action", VStr "disconnect"); ("info", VStr "judge disconnected")])]).
Proof.
  destruct h. unfold on_disconnect, _make_json_log, _disconnected, loss_record.
  cbv [bind get modify emit ret]. cbn.
  match goal with |- context [truthy ?w] => destruct (truthy w) end;
    match goal with |- context [is_none ?n] => destruct (is_none n) end;
    reflexivity.
Qed.

(** X11. A judge that goes away after a dispatch has the loss logged with
    the id, provided the id is truthy: after [submit] with id 0 or an empty
    id, [on_disconnect] logs the departure but not the lost submission.
    Either way it sets the stop flag of the ping thread, sends nothing and
    leaves [_working] as it is. *)
Theorem disconnect_after_dispatch_logs_the_loss :
  forall (h : JudgeHandler) (id problem language source : Val),
    let h1 := handler_after (submit id problem language source h) in
    let r := on_disconnect h1 in
    outcome_of r = Return tt /\
    (In (loss_record h1) (events_of r) <-> truthy id = true) /\
    closed (events_of r) = false /\ sent (events_of r) = [] /\
    _stop_ping (handler_after r) = true /\
    _working (handler_after r) = id.
Proof.
  intros h id problem language source h1 r. subst r.
  assert (Hw : _working h1 = id) by apply submit_sets_working.
  rewrite on_disconnect_run. rewrite Hw.
  split; [reflexivity | split; [| split; [| split; [| split]]]].
  - cbn [events_of snd]. destruct (truthy id).
    + split; [reflexivity | intros _; left; reflexivity].
    + split; [| discriminate].
      intros [Hin | [Hin | []]]; unfold loss_record in Hin; discriminate Hin.
  - cbn [events_of snd]. rewrite closed_app. destruct (truthy id); reflexivity.
  - cbn [events_of snd]. rewrite sent_app. destruct (truthy id); reflexivity.
  - destruct h1. reflexivity.
  - rewrite <- Hw. destruct h1. reflexivity.
Qed.

(** X23. [on_disconnect] twice leaves the fields as [on_disconnect] once,
    but is not silent the second time: the same records, the loss of the
    submission included, are logged again. *)
Theorem on_disconnect_repeats_its_log :
  forall h : JudgeHandler,
    let h1 := handler_after (on_disconnect h) in
    handler_after (on_disconnect h1) = h1 /\
    events_of (on_disconnect h1) = events_of (on_disconnect h).
Proof.
  intros h h1. subst h1. rewrite !on_disconnect_run.
  destruct h. split; reflexivity.
Qed.

(** X12. The two public readings of the assignment agree: [working] is true
    exactly when [get_current_submission()] is not [None], and what
    [get_current_submission()] returns is then [_working] itself. *)
Theorem working_iff_current_submission :
  forall h : JudgeHandler,
    working h = negb (is_none (get_current_submission h)) /\
    (working h = true -> get_current_submission h = _working h).
Proof.
  intro h. unfold working, get_current_submission.
  destruct (truthy (_working h)) eqn:Ht.
  - split; [| reflexivity]. destruct (_working h); try reflexivity. discriminate Ht.
  - split; [reflexivity | discriminate].
Qed.

(** X18. [abort] sends terminate-submission and frees nothing, and neither
    does the judge's answer: after [abort] and the submission-terminated
    message that confirms it the handler is what it was, current submission
    and timer included. *)
Theorem abort_and_its_confirmation_free_nothing :
  forall (clock : float) (data : Wire) (h : JudgeHandler),
    is_message "submission-terminated" data ->
    (abort ;; on_packet clock data) h
    = (Return tt, h, [Send (VDict [("name", VStr "terminate-submission")])]).
Proof.
  intros clock data h Hmsg. unfold bind, abort, send, emit.
  rewrite (empty_handler_does_nothing clock "submission-terminated" data h);
    [reflexivity | cbn; tauto | exact Hmsg].
Qed.

(** X20. In [_make_json_log] a [sub] that is given wins over the packet;
    without one the [submission-id] of a packet that is an object is used,
    a packet that is [None] is skipped like one that was not passed, and a
    packet that is neither [None] nor an object raises [AttributeError]. *)
Theorem make_json_log_picks_the_submission :
  forall (kwargs : list (string * Val)) (h : JudgeHandler),
    (forall packet sub, is_none sub = false ->
       _make_json_log packet sub kwargs h = _make_json_log None sub kwargs h) /\
    (forall d,
       _make_json_log (Some (VDict d)) VNone kwargs h
       = _make_json_log None
           (match dict_get "submission-id" d with Some x => x | None => VNone end)
           kwargs h) /\
    (forall sub,
       _make_json_log (Some VNone) sub kwargs h = _make_json_log None sub kwargs h) /\
    (forall v, v <> VNone -> (forall d, v <> VDict d) ->
       _make_json_log (Some v) VNone kwargs h = (Raise AttributeError, h, [])).
Proof.
  intros kwargs h. split; [| split; [| split]].
  - intros packet sub Hsub. unfold _make_json_log. cbv [bind get ret].
    destruct packet as [pkt |]; rewrite ?Hsub; cbn [andb]; rewrite ?Hsub; reflexivity.
  - intro d. unfold _make_json_log. cbv [bind get ret]. reflexivity.
  - intro sub. unfold _make_json_log. cbv [bind get ret].
    cbn [is_none negb]. rewrite andb_false_r. reflexivity.
  - intros v Hnone Hdict. unfold _make_json_log. cbv [bind get ret raise].
    destruct v; try reflexivity.
    + exfalso. exact (Hnone eq_refl).
    + exfalso. exact (Hdict d eq_refl).
Qed.

(** X22. The audit record of a malformed packet names the current
    submission whenever [_working] is not [None]; [_working] starts as
    [False], so a judge that never had a submission is recorded with
    submission [False], not without one. *)
Theorem malformed_record_names_the_submission :
  forall (packet : Val) (h : JudgeHandler),
    is_none (_working h) = false ->
    exists record,
      events_of (on_malformed packet h)
      = [Log ERROR "%s: Malformed packet: %s" [name h; packet];
         JsonLog EXCEPTION record] /\
      getitem record "judge" = Return (name h) /\
      getitem record "submission" = Return (_working h) /\
      getitem record "info" = Return (VStr "malformed json packet").
Proof.
  intros packet h Hw. rewrite on_malformed_run. eexists. split; [reflexivity |].
  unfold audit_record. rewrite Hw. repeat split.
Qed.

(** X21. The ping thread pings before it looks at the stop flag: started on
    a handler whose flag is already set it still sends one ping, then ends.
    While the flag is not set it sends one ping per round, changes no field
    and never closes the socket. *)
Theorem ping_thread_pings_before_it_checks :
  forall (clock : float) (rest : list float) (h : JudgeHandler),
    (_stop_ping h = true ->
     _ping_thread (clock :: rest) h
     = (Return true, h, [Send (VDict [("name", VStr "ping"); ("when", VFloat clock)])])) /\
    (_stop_ping h = false ->
     _ping_thread (clock :: rest) h
     = (Return false, h,
        map (fun c => Send (VDict [("name", VStr "ping"); ("when", VFloat c)]))
            (clock :: rest))).
Proof.
  intros clock rest h. split; intro Hstop.
  - unfold _ping_thread. cbn [_ping_thread_loop]. unfold ping, send.
    cbv [bind emit get]. rewrite Hstop. reflexivity.
  - assert (Hloop : forall clocks,
              _ping_thread_loop clocks h
              = (Return false, h,
                 map (fun c => Send (VDict [("name", VStr "ping"); ("when", VFloat c)]))
                     clocks)).
    { induction clocks as [| c clocks IH]; [reflexivity |].
      cbn [_ping_thread_loop map]. unfold ping, send.
      cbv [bind emit get]. rewrite Hstop, IH. reflexivity. }
    unfold _ping_thread. rewrite Hloop. reflexivity.
Qed.

End Leaving.

Section Placement.
Context {R : Runtime} {P : Placeholders}.

(** X13. [can_judge] answers yes only for a problem among the judge's
    problems and an executor among its executors, whoever the job is meant
    for. *)
Theorem can_judge_needs_problem_and_executor :
  forall (problem executor : string) (judge_id : option string) (h : JudgeHandler),
    can_judge problem executor judge_id h = Return true ->
    contains problem (problems h) = Return true /\
    contains executor (executors h) = Return true.
Proof.
  intros problem executor judge_id h. unfold can_judge.
  destruct (contains problem (problems h)) as [[] | e]; try discriminate.
  destruct (contains executor (executors h)) as [[] | e]; try discriminate.
  intros _. split; reflexivity.
Qed.

(** X14. A job meant for a judge by name is taken by the handler whose
    [name] is that string and by no other, whether or not the handler is
    disabled. *)
Theorem targeted_job_goes_to_the_named_judge :
  forall (problem executor judge_id : string) (h : JudgeHandler),
    judge_id <> "" ->
    (can_judge problem executor (Some judge_id) h = Return true <->
     contains problem (problems h) = Return true /\
     contains executor (executors h) = Return true /\
     name h = VStr judge_id).
Proof.
  intros problem executor judge_id h Hne. unfold can_judge.
  apply String.eqb_neq in Hne. rewrite Hne. cbn [andb orb].
  destruct (contains problem (problems h)) as [[] | e];
    try (split; [discriminate | intros [H _]; discriminate H]).
  destruct (contains executor (executors h)) as [[] | e];
    try (split; [discriminate | intros [_ [H _]]; discriminate H]).
  unfold eq_str. split.
  - intros [= Heq]. repeat split.
    destruct (name h); try discriminate Heq.
    apply String.eqb_eq in Heq. subst. reflexivity.
  - intros (_ & _ & ->). rewrite String.eqb_refl. reflexivity.
Qed.

(** X15. A job meant for no judge in particular is taken by a handler that
    has the problem and the executor and is not disabled.  A disabled
    handler takes it only if it has no name yet: [None == None] is how a
    judge that never shook hands passes the last test. *)
Theorem untargeted_job_skips_disabled_judges :
  forall (problem executor : string) (h : JudgeHandler),
    can_judge problem executor None h = Return true <->
    contains problem (problems h) = Return true /\
    contains executor (executors h) = Return true /\
    (is_disabled h = false \/ name h = VNone).
Proof.
  intros problem executor h. unfold can_judge.
  destruct (contains problem (problems h)) as [[] | e];
    try (split; [discriminate | intros [H _]; discriminate H]).
  destruct (contains executor (executors h)) as [[] | e];
    try (split; [discriminate | intros [_ [H _]]; discriminate H]).
  cbn [andb]. split.
  - intros [= Heq]. repeat split.
    destruct (is_disabled h); [right | left; reflexivity].
    cbn in Heq. destruct (name h); try discriminate Heq. reflexivity.
  - intros (_ & _ & [-> | ->]); [reflexivity |].
    cbn. rewrite orb_true_r. reflexivity.
Qed.

(** X16. A judge that has not shaken hands can judge nothing, whatever else
    it has sent: after any stream of packets without a handshake the answer
    of [can_judge] is no, for every problem, executor and judge id. *)
Theorem no_handshake_no_work :
  forall (stream : list (float * Wire)) (address : Val)
         (problem executor : string) (judge_id : option string),
    Forall (fun arrival => names_handshake (snd arrival) = false) stream ->
    can_judge problem executor judge_id
              (handler_after (on_packets stream (init address)))
    = Return false.
Proof.
  intros stream address problem executor judge_id Hall.
  assert (Hp : forall h, problems (handler_after (on_packets stream h)) = problems h).
  { induction Hall as [| [clock data] rest Hnh _ IH]; intro h; [reflexivity |].
    cbn [on_packets]. unfold bind.
    pose proof (on_packet_returns clock data h) as Hret.
    assert (Hk : problems (handler_after (on_packet clock data h)) = problems h).
    { revert h Hret. intros h _. revert h. apply on_packet_keeps.
      - intro packet. unfold on_ping_response, _update_ping. keeping.
      - intro packet. unfold on_grading_begin. keeping.
      - left. exact Hnh. }
    destruct (on_packet clock data h) as [[r h1] ev1]. cbn in Hret, Hk. subst r.
    specialize (IH h1). destruct (on_packets rest h1) as [[r2 h2] ev2].
    cbn in IH |- *. congruence. }
  unfold can_judge. rewrite Hp. reflexivity.
Qed.

(** X17. After a handshake that is accepted, a judge that is not disabled
    takes the untargeted jobs for the problems and executors it announced,
    and no others. *)
Theorem accepted_judge_takes_what_it_announced :
  forall (clock : float) (d : list (string * Val)) (id key ps pd ex : Val)
         (h : JudgeHandler) (problem executor : string),
    dict_get "name" d = Some (VStr "handshake") ->
    dict_get "id" d = Some id ->
    dict_get "key" d = Some key ->
    _authenticate id key = true ->
    dict_get "problems" d = Some ps ->
    py_dict ps = Return pd ->
    dict_get "executors" d = Some ex ->
    is_disabled h = false ->
    (can_judge problem executor None
               (handler_after (on_packet clock (Decoded (VDict d)) h)) = Return true <->
     contains problem pd = Return true /\ contains executor ex = Return true).
Proof.
  intros clock d id key ps pd ex h problem executor
         Hname Hid Hkey Hauth Hps Hpd Hex Hdis.
  assert (Hrun : handler_after (on_packet clock (Decoded (VDict d)) h)
                 = set_name id (set_executors ex (set_problems pd (set__problems ps
                     (set_timeout (Some 60) h))))).
  { rewrite (on_packet_named clock d "handshake" on_handshake h Hname) by reflexivity.
    unfold on_handshake, send, close, _connected.
    cbv [bind lift contains getitem get modify emit ret].
    rewrite Hid, Hkey. cbn [negb orb]. rewrite Hauth. cbn [negb].
    rewrite Hps, Hpd, Hex. destruct h. reflexivity. }
  rewrite Hrun. destruct h. cbn in Hdis. subst.
  cbv [set_name set_executors set_problems set__problems set_timeout can_judge
       problems executors is_disabled name].
  destruct (contains problem pd) as [[] | e];
    try (split; [discriminate | intros [H _]; discriminate H]).
  destruct (contains executor ex) as [[] | e];
    try (split; [discriminate | intros [_ H]; discriminate H]).
  split; [intros _; split; reflexivity | reflexivity].
Qed.

End Placement.

(** * More runs on the class as the source has it *)

Lemma ping_response_without_when_changes_nothing_witness :
  dict_get "name" whenless_ping_response = Some (VStr "ping-response") /\
  dict_get "when" whenless_ping_response = None /\
  on_packet (R := exact) (P := base) 5%Q (Decoded (VDict whenless_ping_response)) idle_judge
  = (Return tt, idle_judge, catch_all_events idle_judge).
Proof.
  split; [reflexivity | split; [reflexivity |]].
  apply (ping_response_without_when_changes_nothing (R := exact) (P := base)
           5%Q whenless_ping_response idle_judge).
  - reflexivity.
  - left. reflexivity.
Defined.


Lemma ping_response_without_load_is_still_measured_witness :
  dict_get "name" loadless_ping_response = Some (VStr "ping-response") /\
  (exists v, dict_get "when" loadless_ping_response = Some v /\
             as_float (R := exact) v = Return 10%Q) /\
  (exists v, dict_get "time" loadless_ping_response = Some v /\
             as_float (R := exact) v = Return 11%Q) /\
  dict_get "load" loadless_ping_response = None /\
  let h1 := handler_after (on_packet (R := exact) (P := base) 13%Q
                             (Decoded (VDict loadless_ping_response)) idle_judge) in
  on_packet (R := exact) (P := base) 13%Q (Decoded (VDict loadless_ping_response)) idle_judge
  = (Return tt, h1, catch_all_events idle_judge) /\
  _ping_average h1 = append (latency_sample 13%Q 10%Q) (_ping_average idle_judge) /\
  _time_delta h1 = append (clock_offset_sample 13%Q 10%Q 11%Q) (_time_delta idle_judge) /\
  latency h1 = Some (mean (_ping_average h1)) /\
  time_delta h1 = Some (mean (_time_delta h1)) /\
  load h1 = load idle_judge.
Proof.
  assert (Hwhen : exists v, dict_get "when" loadless_ping_response = Some v /\
                            as_float (R := exact) v = Return 10%Q).
  { eexists. split; reflexivity. }
  assert (Htime : exists v, dict_get "time" loadless_ping_response = Some v /\
                            as_float (R := exact) v = Return 11%Q).
  { eexists. split; reflexivity. }
  split; [reflexivity | split; [exact Hwhen | split; [exact Htime | split; [reflexivity |]]]].
  apply (ping_response_without_load_is_still_measured (R := exact) (P := base)
           13%Q loadless_ping_response 10%Q 11%Q idle_judge).
  - reflexivity.
  - exact Hwhen.
  - exact Htime.
  - reflexivity.
Defined.

Lemma accepted_handshake_registers_the_judge_witness :
  dict_get "name" capable_handshake = Some (VStr "handshake") /\
  dict_get "id" capable_handshake = Some (VStr "judge1") /\
  dict_get "key" capable_handshake = Some (VStr "secret") /\
  _authenticate (Placeholders := base) (VStr "judge1" : Val) (VStr "secret") = true /\
  dict_get "problems" capable_handshake = Some (VList [VList [VStr "aplusb"; VInt 1]]) /\
  py_dict (Runtime := exact) (VList [VList [VStr "aplusb"; VInt 1]])
  = Return (VDict [("aplusb", VInt 1)]) /\
  dict_get "executors" capable_handshake = Some (VDict [("PY3", VList [])]) /\
  on_packet (R := exact) (P := base) 5%Q (Decoded (VDict capable_handshake)) idle_judge
  = (Return tt,
     set_name (VStr "judge1")
       (set_executors (VDict [("PY3", VList [])])
          (set_problems (VDict [("aplusb", VInt 1)])
             (set__problems (VList [VList [VStr "aplusb"; VInt 1]])
                (set_timeout (Some 60) idle_judge)))),
     [Send (VDict [("name", VStr "handshake-success")]);
      Log INFO "Judge authenticated: %s (%s)" [client_address idle_judge; VStr "judge1"];
      StartThread the_ping_thread]).
Proof.
  repeat (split; [reflexivity |]).
  apply (accepted_handshake_registers_the_judge (R := exact) (P := base) 5%Q
           capable_handshake (VStr "judge1") (VStr "secret")
           (VList [VList [VStr "aplusb"; VInt 1]]) (VDict [("aplusb", VInt 1)])
           (VDict [("PY3", VList [])]) idle_judge); reflexivity.
Defined.

Lemma handshake_without_problems_only_widens_the_timeout_witness :
  dict_get "name" problemless_handshake = Some (VStr "handshake") /\
  dict_get "id" problemless_handshake = Some (VStr "judge1") /\
  dict_get "key" problemless_handshake = Some (VStr "secret") /\
  _authenticate (Placeholders := base) (VStr "judge1" : Val) (VStr "secret") = true /\
  dict_get "problems" problemless_handshake = None /\
  on_packet (R := exact) (P := base) 5%Q (Decoded (VDict problemless_handshake)) idle_judge
  = (Return tt, set_timeout (Some 60) idle_judge, catch_all_events idle_judge).
Proof.
  repeat (split; [reflexivity |]).
  apply (handshake_without_problems_only_widens_the_timeout (R := exact) (P := base) 5%Q
           problemless_handshake (VStr "judge1") (VStr "secret") idle_judge); reflexivity.
Defined.

Lemma only_a_handshake_is_answered_witness :
  names_handshake (Decoded (VDict timeless_ping_response)) = false /\
  closed (events_of (on_packet (R := exact) (P := base) 5%Q
                       (Decoded (VDict timeless_ping_response)) busy_judge)) = false /\
  sent (events_of (on_packet (R := exact) (P := base) 5%Q
                     (Decoded (VDict timeless_ping_response)) busy_judge)) = [].
Proof.
  split; [reflexivity |].
  apply (only_a_handshake_is_answered (R := exact) (P := base) 5%Q
           (Decoded (VDict timeless_ping_response)) busy_judge).
  reflexivity.
Defined.

Lemma only_a_handshake_changes_the_identity_witness :
  names_handshake (Decoded (VDict (message "grading-begin" 42))) = false /\
  identity (handler_after (on_packet (R := exact) (P := base) 5%Q
                             (Decoded (VDict (message "grading-begin" 42))) capable_judge))
  = identity capable_judge.
Proof.
  split; [reflexivity |].
  apply (only_a_handshake_changes_the_identity (R := exact) (P := base) 5%Q
           (Decoded (VDict (message "grading-begin" 42))) capable_judge).
  reflexivity.
Defined.

Lemma grading_begin_resets_the_batch_witness :
  dict_get "name" (message "grading-begin" 42) = Some (VStr "grading-begin") /\
  on_packet (R := exact) (P := base) 5%Q (Decoded (VDict (message "grading-begin" 42))) busy_judge
  = match dict_get "submission-id" (message "grading-begin" 42) with
    | Some sid =>
        (Return tt, set_batch_id VNone busy_judge,
         [Log INFO "%s: Grading has begun on: %s" [name busy_judge; sid]])
    | None => (Return tt, busy_judge, catch_all_events busy_judge)
    end.
Proof.
  split; [reflexivity |].
  apply (grading_begin_resets_the_batch (R := exact) (P := base) 5%Q
           (message "grading-begin" 42) busy_judge).
  reflexivity.
Defined.

Lemma abort_and_its_confirmation_free_nothing_witness :
  is_message "submission-terminated"
             (Decoded (VDict (message "submission-terminated" 42))) /\
  (abort ;; on_packet (R := exact) (P := base) 5%Q
              (Decoded (VDict (message "submission-terminated" 42)))) busy_judge
  = (Return tt, busy_judge, [Send (VDict [("name", VStr "terminate-submission")])]).
Proof.
  assert (Hmsg : is_message "submission-terminated"
                            (Decoded (VDict (message "submission-terminated" 42)))).
  { eexists. split; reflexivity. }
  split; [exact Hmsg |].
  apply (abort_and_its_confirmation_free_nothing (R := exact) (P := base) 5%Q _
           busy_judge Hmsg).
Defined.

Lemma malformed_record_names_the_submission_witness :
  is_none (_working idle_judge) = false /\
  exists record,
    events_of (on_malformed (VStr "{oops") idle_judge)
    = [Log ERROR "%s: Malformed packet: %s" [name idle_judge; VStr "{oops"];
       JsonLog EXCEPTION record] /\
    getitem record "judge" = Return (name idle_judge) /\
    getitem record "submission" = Return (_working idle_judge) /\
    getitem record "info" = Return (VStr "malformed json packet").
Proof.
  split; [reflexivity |].
  apply (malformed_record_names_the_submission (R := exact) (VStr "{oops") idle_judge).
  reflexivity.
Defined.

(** A judge that never had a submission is audited with submission [False]. *)
Example idle_judge_is_audited_with_false :
  events_of (on_packet (R := exact) (P := base) 5%Q (Undecodable "{oops") idle_judge)
  = [Log ERROR "%s: Malformed packet: %s" [VNone; VStr "{oops"];
     JsonLog EXCEPTION
       (VDict [("judge", VNone); ("address", VNone); ("submission", VBool false);
               ("info", VStr "malformed json packet")])].
Proof. reflexivity. Qed.

Lemma can_judge_needs_problem_and_executor_witness :
  can_judge "aplusb" "PY3" None capable_judge = Return true /\
  contains "aplusb" (problems capable_judge) = Return true /\
  contains "PY3" (executors capable_judge) = Return true.
Proof.
  split; [reflexivity |].
  apply (can_judge_needs_problem_and_executor (R := exact) "aplusb" "PY3" None capable_judge).
  reflexivity.
Defined.

Lemma targeted_job_goes_to_the_named_judge_witness :
  "judge1" <> "" /\
  (can_judge "aplusb" "PY3" (Some "judge1") drained_judge = Return true <->
   contains "aplusb" (problems drained_judge) = Return true /\
   contains "PY3" (executors drained_judge) = Return true /\
   name drained_judge = VStr "judge1").
Proof.
  split; [discriminate |].
  apply (targeted_job_goes_to_the_named_judge (R := exact) "aplusb" "PY3" "judge1"
           drained_judge).
  discriminate.
Defined.

(** A drained judge turns down a job for anyone and takes the one that names
    it. *)
Example drained_judge_takes_only_its_own :
  can_judge "aplusb" "PY3" None drained_judge = Return false /\
  can_judge "aplusb" "PY3" (Some "judge1") drained_judge = Return true /\
  can_judge "aplusb" "PY3" (Some "judge2") drained_judge = Return false.
Proof. repeat split. Qed.

Lemma twelve_results_are_no_handshake :
  Forall (fun arrival => names_handshake (snd arrival) = false) twelve_results.
Proof. repeat constructor. Qed.

Lemma no_handshake_no_work_witness :
  Forall (fun arrival => names_handshake (snd arrival) = false) twelve_results /\
  can_judge "aplusb" "PY3" None
            (handler_after (on_packets (P := base) twelve_results (init (VStr "10.0.0.7"))))
  = Return false.
Proof.
  split; [exact twelve_results_are_no_handshake |].
  apply (no_handshake_no_work (R := exact) (P := base) twelve_results (VStr "10.0.0.7")
           "aplusb" "PY3" None).
  exact twelve_results_are_no_handshake.
Defined.

Lemma accepted_judge_takes_what_it_announced_witness :
  dict_get "name" capable_handshake = Some (VStr "handshake") /\
  dict_get "id" capable_handshake = Some (VStr "judge1") /\
  dict_get "key" capable_handshake = Some (VStr "secret") /\
  _authenticate (Placeholders := base) (VStr "judge1" : Val) (VStr "secret") = true /\
  dict_get "problems" capable_handshake = Some (VList [VList [VStr "aplusb"; VInt 1]]) /\
  py_dict (Runtime := exact) (VList [VList [VStr "aplusb"; VInt 1]])
  = Return (VDict [("aplusb", VInt 1)]) /\
  dict_get "executors" capable_handshake = Some (VDict [("PY3", VList [])]) /\
  is_disabled idle_judge = false /\
  (can_judge "aplusb" "PY3" None
             (handler_after (on_packet (R := exact) (P := base) 5%Q
                               (Decoded (VDict capable_handshake)) idle_judge))
   = Return true <->
   contains "aplusb" (VDict [("aplusb", VInt 1)] : Val) = Return true /\
   contains "PY3" (VDict [("PY3", VList [])] : Val) = Return true).
Proof.
  repeat (split; [reflexivity |]).
  apply (accepted_judge_takes_what_it_announced (R := exact) (P := base) 5%Q
           capable_handshake (VStr "judge1") (VStr "secret")
           (VList [VList [VStr "aplusb"; VInt 1]]) (VDict [("aplusb", VInt 1)])
           (VDict [("PY3", VList [])]) idle_judge "aplusb" "PY3"); reflexivity.
Defined.

Section Again.
Context {R : Runtime} {P : Placeholders}.

Lemma on_handshake_accepts (d : list (string * Val)) (id key ps pd ex : Val)
    (h : JudgeHandler) :
  dict_get "id" d = Some id ->
  dict_get "key" d = Some key ->
  _authenticate id key = true ->
  dict_get "problems" d = Some ps ->
  py_dict ps = Return pd ->
  dict_get "executors" d = Some ex ->
  on_handshake (VDict d) h
  = (Return tt,
     set_name id (set_executors ex (set_problems pd (set__problems ps
       (set_timeout (Some 60) h)))),
     [Send (VDict [("name", VStr "handshake-success")]);
      Log INFO "Judge authenticated: %s (%s)" [client_address h; id];
      StartThread the_ping_thread]).
Proof.
  intros Hid Hkey Hauth Hps Hpd Hex.
  unfold on_handshake, send, close, _connected.
  cbv [bind lift contains getitem get modify emit ret].
  rewrite Hid, Hkey. cbn [negb orb]. rewrite Hauth. cbn [negb].
  rewrite Hps, Hpd, Hex. destruct h. reflexivity.
Qed.

(** X24. Nothing in [on_handshake] looks at whether the judge has already
    shaken hands: a second handshake is accepted like the first, answered
    again, and starts a second ping thread beside the first. *)
Theorem second_handshake_starts_a_second_ping_thread :
  forall (clock1 clock2 : float) (d : list (string * Val)) (id key ps pd ex : Val)
         (h : JudgeHandler),
    dict_get "name" d = Some (VStr "handshake") ->
    dict_get "id" d = Some id ->
    dict_get "key" d = Some key ->
    _authenticate id key = true ->
    dict_get "problems" d = Some ps ->
    py_dict ps = Return pd ->
    dict_get "executors" d = Some ex ->
    events_of (on_packets [(clock1, Decoded (VDict d)); (clock2, Decoded (VDict d))] h)
    = [Send (VDict [("name", VStr "handshake-success")]);
       Log INFO "Judge authenticated: %s (%s)" [client_address h; id];
       StartThread the_ping_thread;
       Send (VDict [("name", VStr "handshake-success")]);
       Log INFO "Judge authenticated: %s (%s)" [client_address h; id];
       StartThread the_ping_thread].
Proof.
  intros clock1 clock2 d id key ps pd ex h Hname Hid Hkey Hauth Hps Hpd Hex.
  cbn [on_packets]. unfold bind.
  rewrite (on_packet_named clock1 d "handshake" on_handshake h Hname) by reflexivity.
  rewrite (on_handshake_accepts d id key ps pd ex h Hid Hkey Hauth Hps Hpd Hex).
  rewrite (on_packet_named clock2 d "handshake" on_handshake _ Hname) by reflexivity.
  rewrite (on_handshake_accepts d id key ps pd ex _ Hid Hkey Hauth Hps Hpd Hex).
  destruct h. reflexivity.
Qed.

End Again.

Lemma second_handshake_starts_a_second_ping_thread_witness :
  dict_get "name" capable_handshake = Some (VStr "handshake") /\
  dict_get "id" capable_handshake = Some (VStr "judge1") /\
  dict_get "key" capable_handshake = Some (VStr "secret") /\
  _authenticate (Placeholders := base) (VStr "judge1" : Val) (VStr "secret") = true /\
  dict_get "problems" capable_handshake = Some (VList [VList [VStr "aplusb"; VInt 1]]) /\
  py_dict (Runtime := exact) (VList [VList [VStr "aplusb"; VInt 1]])
  = Return (VDict [("aplusb", VInt 1)]) /\
  dict_get "executors" capable_handshake = Some (VDict [("PY3", VList [])]) /\
  events_of (on_packets (R := exact) (P := base)
               [(5%Q, Decoded (VDict capable_handshake));
                (6%Q, Decoded (VDict capable_handshake))] idle_judge)
  = [Send (VDict [("name", VStr "handshake-success")]);
     Log INFO "Judge authenticated: %s (%s)" [client_address idle_judge; VStr "judge1"];
     StartThread the_ping_thread;
     Send (VDict [("name", VStr "handshake-success")]);
     Log INFO "Judge authenticated: %s (%s)" [client_address idle_judge; VStr "judge1"];
     StartThread the_ping_thread].
Proof.
  repeat (split; [reflexivity |]).
  apply (second_handshake_starts_a_second_ping_thread (R := exact) (P := base) 5%Q 6%Q
           capable_handshake (VStr "judge1") (VStr "secret")
           (VList [VList [VStr "aplusb"; VInt 1]]) (VDict [("aplusb", VInt 1)])
           (VDict [("PY3", VList [])]) idle_judge); reflexivity.
Defined.
